(** * Transports/IridiumSBD/Task.cpp: transmission queue and session orchestration

    A shallow embedding of the Iridium SBD transport task of DUNE.  The task
    keeps a list of transmission requests ordered by time to live, one slot
    for the active request, and a mailbox check timer.  The modem driver is
    an external object: what it answers during one cycle of the main loop is
    an input ([Driver]), and every call that commands it is recorded in the
    trace of the cycle ([Event]).  Messages handed to the bus and log lines
    are recorded in the same trace.

    Values of type unsigned are integers: the task stores and compares
    them, and computes with them only to assemble the source address of an
    inbound message, where the conversion to 16 bits is written out.  The
    headers TxRequest.hpp and Driver.hpp and DUNE's Counter are not among
    the sources; what the task uses of them is modelled from the
    specification and marked as such. *)

From Stdlib Require Import ZArith List String Strings.Byte DecimalString Bool Lia.
From Stdlib Require Import Permutation.
Import ListNotations.
Open Scope string_scope.
Open Scope list_scope.
Open Scope Z_scope.

(** ** IMC messages used by the task *)

Module IMC.

(** IMC::IridiumTxStatus::StatusCodeEnum, the three codes the task uses. *)
Inductive StatusCodeEnum : Type :=
| TXSTATUS_OK
| TXSTATUS_ERROR
| TXSTATUS_QUEUED.

Definition StatusCodeEnum_eqb (a b : StatusCodeEnum) : bool :=
  match a, b with
  | TXSTATUS_OK, TXSTATUS_OK => true
  | TXSTATUS_ERROR, TXSTATUS_ERROR => true
  | TXSTATUS_QUEUED, TXSTATUS_QUEUED => true
  | _, _ => false
  end.

(** Request to transmit: header (source address and entity) and fields. *)
Record IridiumMsgTx : Type := {
  getSource : Z;
  getSourceEntity : Z;
  req_id : Z;
  ttl : Z;
  destination : string;
  data : list byte
}.

(** Transmission status, as filled by [sendTxRequestStatus]. *)
Record IridiumTxStatus : Type := {
  status_destination : Z;
  status_destination_entity : Z;
  status_req_id : Z;
  status : StatusCodeEnum;
  text : string
}.

(** Received message, as filled by [handleSBD]. *)
Record IridiumMsgRx : Type := {
  rx_source : Z;
  rx_destination : Z;
  rx_data : list byte
}.

End IMC.

(** ** TxRequest.hpp *)

(** Modelled from the spec: TxRequest.hpp is not among the sources.  The
    request carries its origin, destination, identifier, time to live and
    payload, and the transient state of a transmission: the sequence number
    assigned when a send begins and whether that number is still valid. *)
Record TxRequest : Type := {
  m_src_adr : Z;
  m_src_eid : Z;
  m_dst_adr : Z;
  m_id : Z;
  m_ttl : Z;
  m_data : list byte;
  m_msn : Z;
  m_msn_valid : bool
}.

Module Request.

(** Modelled from the spec: the constructor of TxRequest; no sequence
    number is assigned before a send attempt has begun. *)
Definition new (src_adr src_eid dst_adr id ttl : Z) (data : list byte)
  : TxRequest :=
  {| m_src_adr := src_adr; m_src_eid := src_eid; m_dst_adr := dst_adr;
     m_id := id; m_ttl := ttl; m_data := data;
     m_msn := 0; m_msn_valid := false |}.

Definition getSource (r : TxRequest) : Z := m_src_adr r.
Definition getSourceEntity (r : TxRequest) : Z := m_src_eid r.
Definition getId (r : TxRequest) : Z := m_id r.
Definition getTimeToLive (r : TxRequest) : Z := m_ttl r.
Definition getData (r : TxRequest) : list byte := m_data r.
Definition getMSN (r : TxRequest) : Z := m_msn r.
Definition hasValidMSN (r : TxRequest) : bool := m_msn_valid r.

(** Modelled from the spec: TxRequest::setMSN assigns the sequence number
    of the send that begins and makes it valid. *)
Definition setMSN (msn : Z) (r : TxRequest) : TxRequest :=
  {| m_src_adr := m_src_adr r; m_src_eid := m_src_eid r;
     m_dst_adr := m_dst_adr r; m_id := m_id r; m_ttl := m_ttl r;
     m_data := m_data r; m_msn := msn; m_msn_valid := true |}.

(** Modelled from the spec: TxRequest::invalidateMSN keeps the request and
    marks its sequence number invalid. *)
Definition invalidateMSN (r : TxRequest) : TxRequest :=
  {| m_src_adr := m_src_adr r; m_src_eid := m_src_eid r;
     m_dst_adr := m_dst_adr r; m_id := m_id r; m_ttl := m_ttl r;
     m_data := m_data r; m_msn := m_msn r; m_msn_valid := false |}.

End Request.

(** ** The driver and the clock, as seen during one cycle *)

(** SessionResult of Driver.hpp, through its four getters. *)
Record SessionResult : Type := {
  isSuccessMO : bool;
  getSequenceMO : Z;
  getStatusMO : Z;
  getStatusMT : Z
}.

(** Answers of the driver to the queries of one cycle.  [readBufferMT] is
    the content the driver copies into the buffer it is given; its length is
    the value the call returns. *)
Record Driver : Type := {
  isBusy : bool;
  hasSessionResult : bool;
  getSessionResult : SessionResult;
  getRSSI : Z;
  isCooling : bool;
  hasRingAlert : bool;
  getQueuedMT : Z;
  getMOMSN : Z;
  readBufferMT : list byte
}.

(** What a cycle reads from outside the task: the driver and Clock::get(). *)
Record Env : Type := {
  driver : Driver;
  clock : Z
}.

(** Modelled from the spec: Counter<double> of DUNE's Time library is not
    among the sources.  The counter elapses once the period [m_top] has
    passed since the last reset; time is counted in clock units. *)
Record Counter : Type := {
  m_top : Z;
  m_last : Z
}.

Module Timer.

Definition reset (now : Z) (c : Counter) : Counter :=
  {| m_top := m_top c; m_last := now |}.

Definition setTop (top now : Z) (c : Counter) : Counter :=
  {| m_top := top; m_last := now |}.

Definition overflow (now : Z) (c : Counter) : bool :=
  m_last c + m_top c <=? now.

End Timer.

(** ** The task *)

Record Arguments : Type := {
  uart_dev : string;
  uart_baud : Z;
  mbox_check_per : Z;
  max_tx_rate : Z
}.

(** The part of Tasks::Context the task reads: the identifier of this
    system and the resolution of system names. *)
Record Context : Type := {
  getSystemId : Z;
  resolveSystemName : string -> Z
}.

(** The members of Task the code reads or writes.  [m_driver] records
    whether the driver handle is set; the driver itself is external. *)
Record Task : Type := {
  m_ctx : Context;
  m_driver : bool;
  m_tx_requests : list TxRequest;
  m_mbox_check_timer : Counter;
  m_args : Arguments;
  m_tx_request : option TxRequest
}.

Definition set_driver (b : bool) (t : Task) : Task :=
  {| m_ctx := m_ctx t; m_driver := b; m_tx_requests := m_tx_requests t;
     m_mbox_check_timer := m_mbox_check_timer t; m_args := m_args t;
     m_tx_request := m_tx_request t |}.

Definition set_tx_requests (q : list TxRequest) (t : Task) : Task :=
  {| m_ctx := m_ctx t; m_driver := m_driver t; m_tx_requests := q;
     m_mbox_check_timer := m_mbox_check_timer t; m_args := m_args t;
     m_tx_request := m_tx_request t |}.

Definition set_mbox_check_timer (c : Counter) (t : Task) : Task :=
  {| m_ctx := m_ctx t; m_driver := m_driver t;
     m_tx_requests := m_tx_requests t;
     m_mbox_check_timer := c; m_args := m_args t;
     m_tx_request := m_tx_request t |}.

Definition set_tx_request (r : option TxRequest) (t : Task) : Task :=
  {| m_ctx := m_ctx t; m_driver := m_driver t;
     m_tx_requests := m_tx_requests t;
     m_mbox_check_timer := m_mbox_check_timer t; m_args := m_args t;
     m_tx_request := r |}.

(** ** Effects of a step *)

Inductive Event : Type :=
| Dispatch (st : IMC.IridiumTxStatus)
| DispatchKeepSrcEid (sbd : IMC.IridiumMsgRx)
| ToText (sbd : IMC.IridiumMsgRx)
| Debug (line : string)
| Err (line : string)
| DrvGetSessionResult
| DrvClearBufferMO
| DrvReadBufferMT (size : Z)
| DrvCheckMailBoxAlert
| DrvCheckMailBox
| DrvGetMOMSN
| DrvSendSBD (payload : list byte)
| DrvSetTxRateMax (rate : Z)
| DrvInitialize.

(** A member function returning void: the task after the call and the
    trace of what the call did, in order. *)
Definition Act : Type := Task -> Task * list Event.

Definition skip : Act := fun t => (t, []).

Definition emit (e : Event) : Act := fun t => (t, [e]).

Definition modify (f : Task -> Task) : Act := fun t => (f t, []).

Definition andThen (a b : Act) : Act :=
  fun t => (fst (b (fst (a t))), snd (a t) ++ snd (b (fst (a t)))).

Definition withTask (k : Task -> Act) : Act := fun t => k t t.

Declare Scope act_scope.
Delimit Scope act_scope with act.
Bind Scope act_scope with Act.
Notation "a ;; b" := (andThen a b)
  (at level 61, right associativity) : act_scope.
Open Scope act_scope.

(** String::str with a single %u conversion. *)
Definition str_u (z : Z) : string :=
  NilZero.string_of_uint (N.to_uint (Z.to_N z)).

(** ** Member functions of Task *)

(** Task::Task: no driver yet, no request, nothing active.  The timer is
    default-constructed; [onUpdateParameters] sets its period. *)
Definition Task_new (ctx : Context) (args : Arguments) (now : Z) : Task :=
  {| m_ctx := ctx; m_driver := false; m_tx_requests := [];
     m_mbox_check_timer := Timer.setTop 0 now {| m_top := 0; m_last := now |};
     m_args := args; m_tx_request := None |}.

Definition onUpdateParameters (now : Z) : Act :=
  withTask (fun t =>
    modify (set_mbox_check_timer
              (Timer.setTop (mbox_check_per (m_args t)) now
                 (m_mbox_check_timer t))) ;;
    if m_driver t then emit (DrvSetTxRateMax (max_tx_rate (m_args t)))
    else skip).

(** The serial port and the driver are created and the driver is
    initialised; the three debug lines on the identity of the modem are
    left out. *)
Definition onResourceInitialization : Act :=
  modify (set_driver true) ;;
  emit DrvInitialize ;;
  withTask (fun t => emit (DrvSetTxRateMax (max_tx_rate (m_args t)))).

Definition sendTxRequestStatus (request : TxRequest)
    (code : IMC.StatusCodeEnum) (text : string) : Act :=
  emit (Dispatch
          {| IMC.status_destination := Request.getSource request;
             IMC.status_destination_entity := Request.getSourceEntity request;
             IMC.status_req_id := Request.getId request;
             IMC.status := code;
             IMC.text := text |}).

(** The loop of [enqueueTxRequest] over the list: the request goes in front
    of the first element whose time to live is strictly greater, or at the
    end when there is none. *)
Fixpoint insert_request (request : TxRequest) (l : list TxRequest)
  : list TxRequest :=
  match l with
  | [] => [request]
  | itr :: rest =>
      if Request.getTimeToLive request <? Request.getTimeToLive itr
      then request :: itr :: rest
      else itr :: insert_request request rest
  end.

Definition enqueueTxRequest (request : TxRequest) : Act :=
  modify (fun t => set_tx_requests (insert_request request (m_tx_requests t)) t).

Definition consume (msg : IMC.IridiumMsgTx) : Act :=
  emit (Debug "queueing message") ;;
  withTask (fun t =>
    let dst_adr := resolveSystemName (m_ctx t) (IMC.destination msg) in
    let src_adr := IMC.getSource msg in
    let src_eid := IMC.getSourceEntity msg in
    let request := Request.new src_adr src_eid dst_adr
                     (IMC.req_id msg) (IMC.ttl msg) (IMC.data msg) in
    enqueueTxRequest request ;;
    sendTxRequestStatus request IMC.TXSTATUS_QUEUED "").

Definition dequeueTxRequest (msn : Z) : Act :=
  withTask (fun t =>
    match m_tx_request t with
    | None => skip
    | Some active =>
        if negb (Request.hasValidMSN active)
           || negb (Request.getMSN active =? msn)
        then skip
        else
          emit (Debug "dequeing message") ;;
          emit DrvClearBufferMO ;;
          sendTxRequestStatus active IMC.TXSTATUS_OK "" ;;
          modify (set_tx_request None)
    end).

Definition invalidateTxRequest (msn err_code : Z) : Act :=
  withTask (fun t =>
    match m_tx_request t with
    | None => skip
    | Some active =>
        if negb (Request.hasValidMSN active)
           || negb (Request.getMSN active =? msn)
        then skip
        else
          emit (Debug "invalidating MSN") ;;
          let active' := Request.invalidateMSN active in
          sendTxRequestStatus active' IMC.TXSTATUS_ERROR
            ("failed with error " ++ str_u err_code)%string ;;
          enqueueTxRequest active' ;;
          modify (set_tx_request None)
    end).

(** A byte of the receive buffer, promoted to int. *)
Definition bfr_at (i : nat) (bfr : list byte) : Z :=
  Z.of_N (Byte.to_N (nth i bfr x00)).

Definition handleSBD (env : Env) : Act :=
  let bfr := readBufferMT (driver env) in
  let rv := Z.of_nat (List.length bfr) in
  emit (DrvReadBufferMT 340) ;;
  if 2 <? rv then
    withTask (fun t =>
      let sbd :=
        {| IMC.rx_source :=
             Z.lor (Z.shiftl (bfr_at 0 bfr) 8) (bfr_at 1 bfr) mod 2 ^ 16;
           IMC.rx_destination := getSystemId (m_ctx t);
           IMC.rx_data := skipn 2 (firstn (Z.to_nat rv) bfr) |} in
      emit (ToText sbd) ;;
      emit (DispatchKeepSrcEid sbd))
  else
    emit (Err ("invalid SBD message of size " ++ str_u rv)%string).

Definition handleSessionResult (env : Env) : Act :=
  let res := getSessionResult (driver env) in
  emit DrvGetSessionResult ;;
  (if isSuccessMO res then
     modify (fun t => set_mbox_check_timer
                        (Timer.reset (clock env) (m_mbox_check_timer t)) t) ;;
     dequeueTxRequest (getSequenceMO res)
   else
     invalidateTxRequest (getSequenceMO res) (getStatusMO res)) ;;
  if getStatusMT res =? 1 then handleSBD env else skip.

(** The last two steps of a cycle, taken once the gates have passed: poll
    the mailbox when the list is empty, send the head request otherwise.
    The head request is held by a local pointer of the function only. *)
Definition pollOrSend (env : Env) : Act :=
  let drv := driver env in
  withTask (fun t =>
    match m_tx_requests t with
    | [] =>
        if hasRingAlert drv then emit DrvCheckMailBoxAlert
        else if (0 <? getQueuedMT drv)
                || Timer.overflow (clock env) (m_mbox_check_timer t)
        then emit DrvCheckMailBox
        else skip
    | front :: rest =>
        modify (set_tx_requests rest) ;;
        emit DrvGetMOMSN ;;
        let msn := getMOMSN drv in
        let request := Request.setMSN msn front in
        emit (DrvSendSBD (Request.getData request))
    end).

(** The second step of a cycle: a session result, when the driver has one,
    is handled before anything else. *)
Definition resolveResult (env : Env) : Act :=
  if hasSessionResult (driver env) then handleSessionResult env else skip.

Definition processQueue (env : Env) : Act :=
  let drv := driver env in
  if isBusy drv then skip
  else
    resolveResult env ;;
    if getRSSI drv =? 0 then skip
    else if isCooling drv then skip
    else pollOrSend env.

(** The loop of the destructor, over the requests still in the list. *)
Fixpoint drain (pending : list TxRequest) : Act :=
  match pending with
  | [] => skip
  | req :: rest =>
      modify (set_tx_requests rest) ;;
      sendTxRequestStatus req IMC.TXSTATUS_ERROR "task is shutting down" ;;
      drain rest
  end.

(** Task::~Task. *)
Definition Task_delete : Act :=
  modify (set_tx_request None) ;;
  withTask (fun t => drain (m_tx_requests t)).

(** ** Runs of the task *)

(** What happens to a running task: a request arrives on the bus, the
    parameters are updated, or the main loop runs a cycle. *)
Inductive Input : Type :=
| Arrive (msg : IMC.IridiumMsgTx)
| Update (now : Z)
| Cycle (env : Env).

Definition step (i : Input) : Act :=
  match i with
  | Arrive msg => consume msg
  | Update now => onUpdateParameters now
  | Cycle env => processQueue env
  end.

Fixpoint run (inputs : list Input) : Act :=
  match inputs with
  | [] => skip
  | i :: rest => step i ;; run rest
  end.

(** The states the task goes through, from construction on. *)
Inductive reachable : Task -> Prop :=
| reachable_new ctx args now :
    reachable (fst (onResourceInitialization (Task_new ctx args now)))
| reachable_step t i :
    reachable t -> reachable (fst (step i t)).

(** ** Observations on traces and queues *)

Definition is_error_status (e : Event) : bool :=
  match e with
  | Dispatch st => IMC.StatusCodeEnum_eqb (IMC.status st) IMC.TXSTATUS_ERROR
  | _ => false
  end.

Definition is_status (e : Event) : bool :=
  match e with
  | Dispatch _ => true
  | _ => false
  end.

Definition is_send (e : Event) : bool :=
  match e with
  | DrvSendSBD _ => true
  | _ => false
  end.

Definition is_poll (e : Event) : bool :=
  match e with
  | DrvCheckMailBoxAlert | DrvCheckMailBox => true
  | _ => false
  end.

Definition is_inbound (e : Event) : bool :=
  match e with
  | DispatchKeepSrcEid _ => true
  | _ => false
  end.

(** The guard shared by [dequeueTxRequest] and [invalidateTxRequest]: there
    is no active request, or its sequence number is invalid or is not
    [msn]. *)
Definition unmatched (msn : Z) (t : Task) : bool :=
  match m_tx_request t with
  | None => true
  | Some active =>
      negb (Request.hasValidMSN active)
      || negb (Request.getMSN active =? msn)
  end.

(** Ascending by time to live. *)
Fixpoint ordered (l : list TxRequest) : Prop :=
  match l with
  | [] => True
  | x :: rest =>
      Forall (fun y => Request.getTimeToLive x <= Request.getTimeToLive y) rest
      /\ ordered rest
  end.

(** The request right in front of which [request] would be inserted: the
    head of the rest of the list must have a strictly greater time to live. *)
Definition strictly_after (request : TxRequest) (after : list TxRequest)
  : Prop :=
  match after with
  | [] => True
  | y :: _ => Request.getTimeToLive request < Request.getTimeToLive y
  end.

(** [x] is somewhere in front of [y] in [l]. *)
Definition precedes (x y : TxRequest) (l : list TxRequest) : Prop :=
  exists a b c, l = a ++ x :: b ++ y :: c.

(** ** The main loop *)

(** waitForMessages: the messages that arrived during the wait are handed
    to [consume], in order. *)
Fixpoint waitForMessages (arrived : list IMC.IridiumMsgTx) : Act :=
  match arrived with
  | [] => skip
  | msg :: rest => consume msg ;; waitForMessages rest
  end.

(** Task::onMain, over the passes the loop makes before the task is asked
    to stop: each pass waits for messages and then runs a cycle. *)
Fixpoint onMain (passes : list (list IMC.IridiumMsgTx * Env)) : Act :=
  match passes with
  | [] => skip
  | pass :: rest =>
      waitForMessages (fst pass) ;; processQueue (snd pass) ;; onMain rest
  end.

(** The messages that arrived over the passes of the main loop. *)
Definition arrivals (passes : list (list IMC.IridiumMsgTx * Env))
  : list IMC.IridiumMsgTx :=
  List.concat (map fst passes).

Definition is_ok_status (e : Event) : bool :=
  match e with
  | Dispatch st => IMC.StatusCodeEnum_eqb (IMC.status st) IMC.TXSTATUS_OK
  | _ => false
  end.

Definition is_queued_status (e : Event) : bool :=
  match e with
  | Dispatch st => IMC.StatusCodeEnum_eqb (IMC.status st) IMC.TXSTATUS_QUEUED
  | _ => false
  end.

Definition is_sequence_request (e : Event) : bool :=
  match e with
  | DrvGetMOMSN => true
  | _ => false
  end.

Definition is_clear (e : Event) : bool :=
  match e with
  | DrvClearBufferMO => true
  | _ => false
  end.

(** The status [consume] reports for a message. *)
Definition queued_status (msg : IMC.IridiumMsgTx) : IMC.IridiumTxStatus :=
  {| IMC.status_destination := IMC.getSource msg;
     IMC.status_destination_entity := IMC.getSourceEntity msg;
     IMC.status_req_id := IMC.req_id msg;
     IMC.status := IMC.TXSTATUS_QUEUED;
     IMC.text := "" |}.

(** The status the destructor reports for a request. *)
Definition shutdown_status (req : TxRequest) : IMC.IridiumTxStatus :=
  {| IMC.status_destination := Request.getSource req;
     IMC.status_destination_entity := Request.getSourceEntity req;
     IMC.status_req_id := Request.getId req;
     IMC.status := IMC.TXSTATUS_ERROR;
     IMC.text := "task is shutting down" |}.

Definition is_arrival (i : Input) : bool :=
  match i with
  | Arrive _ => true
  | _ => false
  end.

(** The books of a stretch of execution that starts with no active
    request: [arrived] requests came in, each answered by a QUEUED status;
    nothing was confirmed, failed or cleared; and every request that was in
    the list or came in is still in the list or was handed to the driver. *)
Definition tally (arrived : nat) (before after : Task) (trace : list Event)
  : Prop :=
  m_tx_request after = None
  /\ filter is_ok_status trace = []
  /\ filter is_error_status trace = []
  /\ filter is_clear trace = []
  /\ List.length (filter is_queued_status trace) = arrived
  /\ (List.length (m_tx_requests after) + List.length (filter is_send trace)
      = List.length (m_tx_requests before) + arrived)%nat.

(** ** Concrete scenarios *)

Module Scenario.

Definition ctx : Context :=
  {| getSystemId := 30; resolveSystemName := fun _ => 99 |}.

Definition args : Arguments :=
  {| uart_dev := "/dev/ttyUSB0"; uart_baud := 19200;
     mbox_check_per := 300; max_tx_rate := 0 |}.

(** The task when the main loop starts. *)
Definition idle : Task :=
  fst (onResourceInitialization (Task_new ctx args 0)).

Definition msg (id ttl : Z) (payload : list byte) : IMC.IridiumMsgTx :=
  {| IMC.getSource := 10; IMC.getSourceEntity := 4; IMC.req_id := id;
     IMC.ttl := ttl; IMC.destination := "gateway"; IMC.data := payload |}.

(** The request [consume] builds from [msg id ttl payload]. *)
Definition request (id ttl : Z) (payload : list byte) : TxRequest :=
  Request.new 10 4 99 id ttl payload.

Definition result (ok : bool) (msn code mt : Z) : SessionResult :=
  {| isSuccessMO := ok; getSequenceMO := msn; getStatusMO := code;
     getStatusMT := mt |}.

(** A driver that is not busy nor cooling and has service, without a
    session result, ring alert or queued message; [momsn] is the sequence
    number it hands out. *)
Definition ready (momsn : Z) : Driver :=
  {| isBusy := false; hasSessionResult := false;
     getSessionResult := result false 0 0 0; getRSSI := 5;
     isCooling := false; hasRingAlert := false; getQueuedMT := 0;
     getMOMSN := momsn; readBufferMT := [] |}.

(** The same driver with a session result to hand over and [bytes] in its
    receive buffer. *)
Definition done (res : SessionResult) (bytes : list byte) (momsn : Z)
  : Driver :=
  {| isBusy := false; hasSessionResult := true;
     getSessionResult := res; getRSSI := 5;
     isCooling := false; hasRingAlert := false; getQueuedMT := 0;
     getMOMSN := momsn; readBufferMT := bytes |}.

Definition ringing (alert : bool) (queued : Z) : Driver :=
  {| isBusy := false; hasSessionResult := false;
     getSessionResult := result false 0 0 0; getRSSI := 5;
     isCooling := false; hasRingAlert := alert; getQueuedMT := queued;
     getMOMSN := 1; readBufferMT := [] |}.

Definition at_time (now : Z) (drv : Driver) : Env :=
  {| driver := drv; clock := now |}.

(** A task with [queue] pending and [active] in the active slot. *)
Definition holding (queue : list TxRequest) (active : option TxRequest)
  : Task :=
  set_tx_request active (set_tx_requests queue idle).

End Scenario.

(** * Properties *)

Ltac act :=
  unfold processQueue, pollOrSend, handleSessionResult, handleSBD,
    invalidateTxRequest, dequeueTxRequest, consume, onUpdateParameters,
    onResourceInitialization, Task_delete, enqueueTxRequest,
    sendTxRequestStatus, andThen, withTask, modify, emit, skip in *.

(** ** The ordered list of requests *)

Section Queue.

Variable request : TxRequest.

Lemma insert_request_split (l : list TxRequest) :
  exists before after,
    l = before ++ after
    /\ insert_request request l = before ++ request :: after
    /\ Forall (fun x => Request.getTimeToLive x
                        <= Request.getTimeToLive request) before
    /\ strictly_after request after.
Proof.
  induction l as [|itr rest IH]; cbn.
  - exists [], []. cbn. auto.
  - destruct (Request.getTimeToLive request <? Request.getTimeToLive itr)
      eqn:Hlt.
    + exists [], (itr :: rest). cbn. apply Z.ltb_lt in Hlt. auto.
    + destruct IH as (before & after & Hl & Hins & Hle & Hgt).
      exists (itr :: before), after. cbn.
      apply Z.ltb_ge in Hlt. rewrite Hins, Hl at 1.
      repeat split; auto.
Qed.

Lemma insert_request_Forall (P : TxRequest -> Prop) (l : list TxRequest) :
  P request -> Forall P l -> Forall P (insert_request request l).
Proof.
  intros Hr Hl. induction Hl as [|itr rest Hitr Hrest IH]; cbn.
  - auto.
  - destruct (_ <? _); auto.
Qed.

Lemma insert_request_ordered (l : list TxRequest) :
  ordered l -> ordered (insert_request request l).
Proof.
  induction l as [|itr rest IH]; cbn.
  - auto.
  - intros [Hhead Htail].
    destruct (Request.getTimeToLive request <? Request.getTimeToLive itr)
      eqn:Hlt; cbn.
    + apply Z.ltb_lt in Hlt. repeat split; auto.
      constructor; [lia|].
      eapply Forall_impl; [|exact Hhead]. cbn. intros; lia.
    + apply Z.ltb_ge in Hlt. split; auto.
      apply insert_request_Forall; auto.
Qed.

Lemma insert_request_length (l : list TxRequest) :
  List.length (insert_request request l) = S (List.length l).
Proof.
  induction l as [|itr rest IH]; cbn; [reflexivity|].
  destruct (_ <? _); cbn; congruence.
Qed.

End Queue.

(** A request with a smaller time to live than one of the list goes in
    front of it. *)
Lemma insert_request_overtakes (fresh old : TxRequest) (l : list TxRequest) :
  Request.getTimeToLive fresh < Request.getTimeToLive old ->
  In old l ->
  precedes fresh old (insert_request fresh l).
Proof.
  intros Hlt. induction l as [|itr rest IH]; intros Hin; [destruct Hin|].
  cbn [insert_request].
  destruct (Request.getTimeToLive fresh <? Request.getTimeToLive itr) eqn:Hc.
  - apply in_split in Hin. destruct Hin as (b & c & Hsplit).
    exists [], b, c. cbn. now rewrite <- Hsplit.
  - apply Z.ltb_ge in Hc. destruct Hin as [-> | Hin]; [lia|].
    destruct (IH Hin) as (a & b & c & Heq).
    exists (itr :: a), b, c. cbn. now rewrite Heq.
Qed.

Lemma insert_request_In (request : TxRequest) (l : list TxRequest) :
  In request (insert_request request l).
Proof.
  destruct (insert_request_split request l) as (b & a & _ & -> & _).
  apply in_or_app. right. now left.
Qed.

(** ** What each member function does to the task *)

Lemma handleSBD_task (env : Env) (t : Task) : fst (handleSBD env t) = t.
Proof. act. destruct (2 <? _); reflexivity. Qed.

Lemma handleSBD_no_status (env : Env) (t : Task) :
  filter is_status (snd (handleSBD env t)) = [].
Proof. act. destruct (2 <? _); reflexivity. Qed.

Lemma dequeueTxRequest_queue (msn : Z) (t : Task) :
  m_tx_requests (fst (dequeueTxRequest msn t)) = m_tx_requests t.
Proof.
  act. destruct (m_tx_request t) as [active|]; [|reflexivity].
  destruct (_ || _); reflexivity.
Qed.

Lemma dequeueTxRequest_slot (msn : Z) (t : Task) :
  m_tx_request t = None -> dequeueTxRequest msn t = (t, []).
Proof. intros H. act. now rewrite H. Qed.

Lemma invalidateTxRequest_slot (msn err_code : Z) (t : Task) :
  m_tx_request t = None -> invalidateTxRequest msn err_code t = (t, []).
Proof. intros H. act. now rewrite H. Qed.

Lemma invalidateTxRequest_ordered (msn err_code : Z) (t : Task) :
  ordered (m_tx_requests t) ->
  ordered (m_tx_requests (fst (invalidateTxRequest msn err_code t))).
Proof.
  intros H. act. destruct (m_tx_request t) as [active|]; [|exact H].
  destruct (_ || _); cbn; [exact H|].
  now apply insert_request_ordered.
Qed.

Lemma handleSessionResult_ordered (env : Env) (t : Task) :
  ordered (m_tx_requests t) ->
  ordered (m_tx_requests (fst (handleSessionResult env t))).
Proof.
  intros H. unfold handleSessionResult.
  set (res := getSessionResult (driver env)).
  unfold andThen at 1. cbn [fst snd emit].
  unfold andThen at 1. cbn [fst].
  assert (Hmid : ordered (m_tx_requests (fst (
     (if isSuccessMO res
      then modify (fun t0 => set_mbox_check_timer
                     (Timer.reset (clock env) (m_mbox_check_timer t0)) t0) ;;
           dequeueTxRequest (getSequenceMO res)
      else invalidateTxRequest (getSequenceMO res) (getStatusMO res)) t)))).
  { destruct (isSuccessMO res).
    - unfold andThen. cbn [fst modify]. now rewrite dequeueTxRequest_queue.
    - now apply invalidateTxRequest_ordered. }
  destruct (getStatusMT res =? 1).
  - now rewrite handleSBD_task.
  - exact Hmid.
Qed.

Lemma pollOrSend_ordered (env : Env) (t : Task) :
  ordered (m_tx_requests t) ->
  ordered (m_tx_requests (fst (pollOrSend env t))).
Proof.
  intros H. act. destruct (m_tx_requests t) as [|front rest] eqn:Hq.
  - destruct (hasRingAlert _); [|destruct (_ || _)]; cbn; now rewrite Hq.
  - cbn. apply H.
Qed.

Lemma processQueue_ordered (env : Env) (t : Task) :
  ordered (m_tx_requests t) ->
  ordered (m_tx_requests (fst (processQueue env t))).
Proof.
  intros H. unfold processQueue.
  destruct (isBusy (driver env)); [exact H|].
  unfold andThen at 1. cbn [fst].
  assert (Hmid : ordered (m_tx_requests (fst (resolveResult env t)))).
  { unfold resolveResult.
    destruct (hasSessionResult _); [now apply handleSessionResult_ordered|].
    exact H. }
  destruct (getRSSI _ =? 0); [exact Hmid|].
  destruct (isCooling _); [exact Hmid|].
  now apply pollOrSend_ordered.
Qed.

Lemma step_ordered (i : Input) (t : Task) :
  ordered (m_tx_requests t) -> ordered (m_tx_requests (fst (step i t))).
Proof.
  intros H. destruct i as [msg|now|env]; cbn [step].
  - act. cbn. now apply insert_request_ordered.
  - act. destruct (m_driver t); exact H.
  - now apply processQueue_ordered.
Qed.

Lemma reachable_ordered (t : Task) :
  reachable t -> ordered (m_tx_requests t).
Proof.
  induction 1 as [ctx args now|t i _ IH].
  - exact I.
  - now apply step_ordered.
Qed.

Lemma pollOrSend_slot (env : Env) (t : Task) :
  m_tx_request (fst (pollOrSend env t)) = m_tx_request t.
Proof.
  act. destruct (m_tx_requests t) as [|front rest].
  - destruct (hasRingAlert _); [|destruct (_ || _)]; reflexivity.
  - reflexivity.
Qed.

(** A cycle that passes the gates with no session result and a request in
    the list: the head leaves the list and is sent. *)
Lemma processQueue_send (env : Env) (t : Task) (front : TxRequest)
    (rest : list TxRequest) :
  isBusy (driver env) = false ->
  hasSessionResult (driver env) = false ->
  getRSSI (driver env) <> 0 ->
  isCooling (driver env) = false ->
  m_tx_requests t = front :: rest ->
  processQueue env t
  = (set_tx_requests rest t, [DrvGetMOMSN; DrvSendSBD (Request.getData front)]).
Proof.
  intros Hbusy Hres Hrssi Hcool Hq.
  apply Z.eqb_neq in Hrssi.
  unfold processQueue, resolveResult. rewrite Hbusy, Hres, Hrssi, Hcool.
  act. cbn. rewrite Hq. reflexivity.
Qed.

(** Handling a session result, given what the resolution of the outbound
    side does: the result is taken from the driver, the resolution runs, and
    the receive buffer is read when the MT status is 1. *)
Lemma handleSessionResult_run (env : Env) (t mid : Task) (ev : list Event) :
  let res := getSessionResult (driver env) in
  (if isSuccessMO res
   then dequeueTxRequest (getSequenceMO res)
          (set_mbox_check_timer
             (Timer.reset (clock env) (m_mbox_check_timer t)) t)
   else invalidateTxRequest (getSequenceMO res) (getStatusMO res) t)
  = (mid, ev) ->
  handleSessionResult env t
  = (mid,
     DrvGetSessionResult
       :: ev ++ (if getStatusMT res =? 1 then snd (handleSBD env mid)
                 else [])).
Proof.
  intros res Hmid. unfold handleSessionResult. fold res.
  destruct (isSuccessMO res).
  - unfold andThen. cbn [fst snd emit modify app]. rewrite Hmid.
    cbn [fst snd]. destruct (getStatusMT res =? 1).
    + now rewrite handleSBD_task.
    + reflexivity.
  - unfold andThen. cbn [fst snd emit app]. rewrite Hmid.
    cbn [fst snd]. destruct (getStatusMT res =? 1).
    + now rewrite handleSBD_task.
    + reflexivity.
Qed.

(** ** Starting a send *)

(** C1, as the code runs it: with one request queued and a driver that is
    not busy nor cooling, has service and no session result, a cycle takes
    the request off the list, asks the driver for a sequence number and
    sends the payload of the request, and the active slot stays empty: the
    request carrying the sequence number is not stored in it. *)
Theorem processQueue_send_leaves_slot_empty :
  let r := Scenario.request 1 5 [x68; x69] in
  let t := Scenario.holding [r] None in
  let after := processQueue (Scenario.at_time 10 (Scenario.ready 42)) t in
  snd after = [DrvGetMOMSN; DrvSendSBD [x68; x69]]
  /\ m_tx_requests (fst after) = []
  /\ m_tx_request (fst after) = None
  /\ m_tx_request (fst after) <> Some (Request.setMSN 42 r).
Proof.
  cbv zeta. repeat split; try reflexivity. discriminate.
Qed.

(** C2, as the code runs it: two requests arrive; a first cycle sends the
    first of them; in the next cycle the driver hands over the result of
    that session (success, same sequence number), which resolves nothing
    since the active slot is empty, and the second request is sent: no
    status confirms or invalidates the first request in between. *)
Theorem second_send_without_resolution :
  let a := Scenario.msg 1 5 [x61] in
  let b := Scenario.msg 2 6 [x62] in
  let t := fst (run [Arrive a; Arrive b] Scenario.idle) in
  let first := processQueue (Scenario.at_time 10 (Scenario.ready 42)) t in
  let second :=
    processQueue
      (Scenario.at_time 20
         (Scenario.done (Scenario.result true 42 0 0) [] 43))
      (fst first) in
  snd first = [DrvGetMOMSN; DrvSendSBD [x61]]
  /\ m_tx_request (fst first) = None
  /\ snd second = [DrvGetSessionResult; DrvGetMOMSN; DrvSendSBD [x62]]
  /\ filter is_send (snd first ++ snd second)
     = [DrvSendSBD [x61]; DrvSendSBD [x62]]
  /\ filter is_status (snd first ++ snd second) = [].
Proof.
  cbv zeta. repeat split; reflexivity.
Qed.

(** ** Shutdown *)

(** The status the destructor reports for a request still in the list. *)
Lemma drain_trace (pending : list TxRequest) (t : Task) :
  snd (drain pending t)
  = map (fun req =>
           Dispatch
             {| IMC.status_destination := Request.getSource req;
                IMC.status_destination_entity := Request.getSourceEntity req;
                IMC.status_req_id := Request.getId req;
                IMC.status := IMC.TXSTATUS_ERROR;
                IMC.text := "task is shutting down" |}) pending.
Proof.
  revert t. induction pending as [|req rest IH]; intros t; cbn [drain map].
  - reflexivity.
  - act. cbn [fst snd app]. now rewrite IH.
Qed.

Lemma drain_task (pending : list TxRequest) (t : Task) :
  m_tx_requests (fst (drain pending t)) = match pending with
                                           | [] => m_tx_requests t
                                           | _ :: _ => []
                                           end
  /\ m_tx_request (fst (drain pending t)) = m_tx_request t.
Proof.
  revert t. induction pending as [|req rest IH]; intros t; cbn [drain].
  - split; reflexivity.
  - act. cbn [fst snd].
    destruct (IH (set_tx_requests rest t)) as [Hq Hslot].
    rewrite Hq, Hslot. destruct rest; split; reflexivity.
Qed.

(** C3, as stated, fails: with two requests queued and one active the
    destructor emits two ERROR statuses, not three. *)
Lemma shutdown_three_errors_counterexample :
  let t := Scenario.holding
             [Scenario.request 1 1 [x61]; Scenario.request 2 2 [x62]]
             (Some (Request.setMSN 7 (Scenario.request 0 0 [x60]))) in
  List.length (m_tx_requests t) = 2%nat
  /\ m_tx_request t <> None
  /\ List.length (filter is_error_status (snd (Task_delete t))) = 2%nat
  /\ List.length (filter is_error_status (snd (Task_delete t))) <> 3%nat.
Proof.
  cbv zeta. repeat split; try reflexivity; discriminate.
Qed.

(** C3, amended: on shutdown with two requests queued and one active, the
    destructor emits exactly two ERROR statuses, one per queued request in
    the order of the list and each with the text "task is shutting down";
    the active request is dropped without a status; afterwards the list and
    the active slot are both empty. *)
Theorem shutdown_reports_queued_only (t : Task) (active q1 q2 : TxRequest) :
  m_tx_request t = Some active ->
  m_tx_requests t = [q1; q2] ->
  let shutdown_status (req : TxRequest) :=
    Dispatch
      {| IMC.status_destination := Request.getSource req;
         IMC.status_destination_entity := Request.getSourceEntity req;
         IMC.status_req_id := Request.getId req;
         IMC.status := IMC.TXSTATUS_ERROR;
         IMC.text := "task is shutting down" |} in
  snd (Task_delete t) = [shutdown_status q1; shutdown_status q2]
  /\ List.length (filter is_error_status (snd (Task_delete t))) = 2%nat
  /\ m_tx_requests (fst (Task_delete t)) = []
  /\ m_tx_request (fst (Task_delete t)) = None.
Proof.
  intros Hslot Hq. cbv zeta.
  unfold Task_delete, andThen, withTask, modify. cbn [fst snd app].
  cbn [set_tx_request m_tx_requests]. rewrite Hq.
  rewrite drain_trace.
  destruct (drain_task [q1; q2] (set_tx_request None t)) as [Hq' Hslot'].
  rewrite Hq', Hslot'. repeat split; reflexivity.
Qed.

Lemma shutdown_reports_queued_only_witness :
  let q1 := Scenario.request 1 1 [x61] in
  let q2 := Scenario.request 2 2 [x62] in
  let active := Request.setMSN 7 (Scenario.request 0 0 [x60]) in
  let t := Scenario.holding [q1; q2] (Some active) in
  m_tx_request t = Some active
  /\ m_tx_requests t = [q1; q2]
  /\ List.length (filter is_error_status (snd (Task_delete t))) = 2%nat
  /\ m_tx_requests (fst (Task_delete t)) = []
  /\ m_tx_request (fst (Task_delete t)) = None.
Proof.
  cbv zeta.
  split; [reflexivity|]. split; [reflexivity|].
  apply (shutdown_reports_queued_only
           (Scenario.holding
              [Scenario.request 1 1 [x61]; Scenario.request 2 2 [x62]]
              (Some (Request.setMSN 7 (Scenario.request 0 0 [x60]))))
           (Request.setMSN 7 (Scenario.request 0 0 [x60]))
           (Scenario.request 1 1 [x61]) (Scenario.request 2 2 [x62]));
    reflexivity.
Defined.

(** ** Order of the list *)

(** C4: the list of requests of a running task is always ascending by time
    to live; a request is enqueued right before the first element with a
    strictly greater time to live, behind every element with an equal or
    smaller one; and requests with times to live 5, 1, 3, 1 enqueued in that
    order into an empty list leave it, cycle after cycle, in the order
    1 (first arrived), 1 (second arrived), 3, 5. *)
Theorem queue_ordered_by_ttl (t : Task) :
  reachable t ->
  ordered (m_tx_requests t)
  /\ (forall request,
        exists before after,
          m_tx_requests t = before ++ after
          /\ m_tx_requests (fst (enqueueTxRequest request t))
             = before ++ request :: after
          /\ Forall (fun x => Request.getTimeToLive x
                              <= Request.getTimeToLive request) before
          /\ strictly_after request after
          /\ ordered (m_tx_requests (fst (enqueueTxRequest request t))))
  /\ (forall r5 r1 r3 r1' env,
        Request.getTimeToLive r5 = 5 ->
        Request.getTimeToLive r1 = 1 ->
        Request.getTimeToLive r3 = 3 ->
        Request.getTimeToLive r1' = 1 ->
        m_tx_requests t = [] ->
        isBusy (driver env) = false ->
        hasSessionResult (driver env) = false ->
        getRSSI (driver env) <> 0 ->
        isCooling (driver env) = false ->
        let t' := fst ((enqueueTxRequest r5 ;; enqueueTxRequest r1 ;;
                        enqueueTxRequest r3 ;; enqueueTxRequest r1') t) in
        m_tx_requests t' = [r1; r1'; r3; r5]
        /\ snd (run [Cycle env; Cycle env; Cycle env; Cycle env] t')
           = [DrvGetMOMSN; DrvSendSBD (Request.getData r1);
              DrvGetMOMSN; DrvSendSBD (Request.getData r1');
              DrvGetMOMSN; DrvSendSBD (Request.getData r3);
              DrvGetMOMSN; DrvSendSBD (Request.getData r5)]
        /\ m_tx_requests
             (fst (run [Cycle env; Cycle env; Cycle env; Cycle env] t'))
           = []).
Proof.
  intros Hreach. split; [now apply reachable_ordered|]. split.
  - intros request.
    destruct (insert_request_split request (m_tx_requests t))
      as (before & after & Hq & Hins & Hle & Hgt).
    exists before, after. unfold enqueueTxRequest, modify. cbn [fst].
    cbn [set_tx_requests m_tx_requests].
    repeat split; auto.
    apply insert_request_ordered. now apply reachable_ordered.
  - intros r5 r1 r3 r1' env H5 H1 H3 H1' Hq Hbusy Hres Hrssi Hcool t'.
    assert (Hq' : m_tx_requests t' = [r1; r1'; r3; r5]).
    { subst t'. unfold enqueueTxRequest, andThen, modify. cbn [fst snd].
      cbn [set_tx_requests m_tx_requests]. rewrite Hq.
      cbn [insert_request]. rewrite H1, H5. cbn [Z.ltb Z.compare Pos.compare Pos.compare_cont].
      cbn [insert_request]. rewrite H3, H1, H5.
      cbn [Z.ltb Z.compare Pos.compare Pos.compare_cont].
      cbn [insert_request]. rewrite H1', H1, H3.
      cbn [Z.ltb Z.compare Pos.compare Pos.compare_cont]. reflexivity. }
    split; [exact Hq'|].
    cbn [run step]. unfold andThen, skip.
    rewrite (processQueue_send env t' r1 [r1'; r3; r5]) by assumption.
    cbn [fst snd].
    rewrite (processQueue_send env _ r1' [r3; r5]) by auto.
    cbn [fst snd].
    rewrite (processQueue_send env _ r3 [r5]) by auto.
    cbn [fst snd].
    rewrite (processQueue_send env _ r5 []) by auto.
    cbn [fst snd]. split; reflexivity.
Qed.

Lemma queue_ordered_by_ttl_witness :
  let r5 := Scenario.request 0 5 [x35] in
  let r1 := Scenario.request 1 1 [x31] in
  let r3 := Scenario.request 2 3 [x33] in
  let r1' := Scenario.request 3 1 [x32] in
  let env := Scenario.at_time 10 (Scenario.ready 42) in
  let t' := fst ((enqueueTxRequest r5 ;; enqueueTxRequest r1 ;;
                  enqueueTxRequest r3 ;; enqueueTxRequest r1')
                   Scenario.idle) in
  reachable Scenario.idle
  /\ m_tx_requests t' = [r1; r1'; r3; r5]
  /\ snd (run [Cycle env; Cycle env; Cycle env; Cycle env] t')
     = [DrvGetMOMSN; DrvSendSBD [x31]; DrvGetMOMSN; DrvSendSBD [x32];
        DrvGetMOMSN; DrvSendSBD [x33]; DrvGetMOMSN; DrvSendSBD [x35]]
  /\ m_tx_requests
       (fst (run [Cycle env; Cycle env; Cycle env; Cycle env] t')) = [].
Proof.
  cbv zeta.
  assert (Hreach : reachable Scenario.idle) by apply reachable_new.
  split; [exact Hreach|].
  destruct (queue_ordered_by_ttl Scenario.idle Hreach) as (_ & _ & Hex).
  apply (Hex (Scenario.request 0 5 [x35]) (Scenario.request 1 1 [x31])
             (Scenario.request 2 3 [x33]) (Scenario.request 3 1 [x32])
             (Scenario.at_time 10 (Scenario.ready 42)));
    solve [reflexivity | discriminate].
Defined.

(** ** Session results *)

(** C5: when the session result reports a failure whose sequence number is
    the valid sequence number of the active request, the sequence number of
    the request is marked invalid, an ERROR status is reported whose text
    ends with the status code of the result written in decimal, the request
    goes back into the list with its time to live unchanged, so that a
    request arriving later with a smaller time to live is placed in front
    of it, and the active slot is cleared. *)
Theorem failure_requeues_active (env : Env) (t : Task) (active : TxRequest) :
  let res := getSessionResult (driver env) in
  let requeued := Request.invalidateMSN active in
  let after := handleSessionResult env t in
  m_tx_request t = Some active ->
  Request.hasValidMSN active = true ->
  Request.getMSN active = getSequenceMO res ->
  isSuccessMO res = false ->
  Request.hasValidMSN requeued = false
  /\ Request.getTimeToLive requeued = Request.getTimeToLive active
  /\ (exists rest,
        snd after
        = DrvGetSessionResult
            :: Debug "invalidating MSN"
            :: Dispatch
                 {| IMC.status_destination := Request.getSource active;
                    IMC.status_destination_entity :=
                      Request.getSourceEntity active;
                    IMC.status_req_id := Request.getId active;
                    IMC.status := IMC.TXSTATUS_ERROR;
                    IMC.text := ("failed with error "
                                 ++ str_u (getStatusMO res))%string |}
            :: rest
        /\ filter is_status rest = [])
  /\ m_tx_requests (fst after) = insert_request requeued (m_tx_requests t)
  /\ In requeued (m_tx_requests (fst after))
  /\ m_tx_request (fst after) = None
  /\ (forall fresh,
        Request.getTimeToLive fresh < Request.getTimeToLive active ->
        precedes fresh requeued
          (m_tx_requests (fst (enqueueTxRequest fresh (fst after))))).
Proof.
  intros res requeued after Hslot Hvalid Hmsn Hfail.
  assert (Hguard : negb (Request.hasValidMSN active)
                   || negb (Request.getMSN active =? getSequenceMO res)
                   = false).
  { rewrite Hvalid, Hmsn, Z.eqb_refl. reflexivity. }
  assert (Hinv : invalidateTxRequest (getSequenceMO res) (getStatusMO res) t
                 = (set_tx_request None
                      (set_tx_requests
                         (insert_request requeued (m_tx_requests t)) t),
                    [Debug "invalidating MSN";
                     Dispatch
                       {| IMC.status_destination := Request.getSource active;
                          IMC.status_destination_entity :=
                            Request.getSourceEntity active;
                          IMC.status_req_id := Request.getId active;
                          IMC.status := IMC.TXSTATUS_ERROR;
                          IMC.text := ("failed with error "
                                       ++ str_u (getStatusMO res))%string |}])).
  { unfold invalidateTxRequest, withTask. rewrite Hslot, Hguard.
    reflexivity. }
  assert (Hstate : fst after
                   = set_tx_request None
                       (set_tx_requests
                          (insert_request requeued (m_tx_requests t)) t)).
  { subst after. unfold handleSessionResult. fold res. rewrite Hfail.
    unfold andThen at 1. cbn [fst emit]. unfold andThen at 1. cbn [fst].
    rewrite Hinv. cbn [fst].
    destruct (getStatusMT res =? 1); [apply handleSBD_task|reflexivity]. }
  split; [reflexivity|]. split; [reflexivity|]. split.
  { subst after. unfold handleSessionResult. fold res. rewrite Hfail.
    unfold andThen at 1. cbn [fst snd emit app].
    unfold andThen at 1. rewrite Hinv. cbn [fst snd app].
    eexists. split; [reflexivity|].
    destruct (getStatusMT res =? 1); [apply handleSBD_no_status|reflexivity]. }
  rewrite Hstate. cbn [set_tx_request set_tx_requests m_tx_requests m_tx_request].
  split; [reflexivity|]. split; [apply insert_request_In|].
  split; [reflexivity|].
  intros fresh Hlt. unfold enqueueTxRequest, modify. cbn [fst].
  cbn [set_tx_request set_tx_requests m_tx_requests].
  apply insert_request_overtakes; [exact Hlt|apply insert_request_In].
Qed.

Lemma failure_requeues_active_witness :
  let active := Request.setMSN 42 (Scenario.request 1 5 [x68; x69]) in
  let t := Scenario.holding [] (Some active) in
  let res := Scenario.result false 42 7 0 in
  let env := Scenario.at_time 10 (Scenario.done res [] 43) in
  let after := handleSessionResult env t in
  (m_tx_request t = Some active
   /\ Request.hasValidMSN active = true
   /\ Request.getMSN active = getSequenceMO res
   /\ isSuccessMO res = false)
  /\ m_tx_requests (fst after) = [Request.invalidateMSN active]
  /\ m_tx_request (fst after) = None
  /\ snd after
     = [DrvGetSessionResult; Debug "invalidating MSN";
        Dispatch
          {| IMC.status_destination := 10;
             IMC.status_destination_entity := 4;
             IMC.status_req_id := 1;
             IMC.status := IMC.TXSTATUS_ERROR;
             IMC.text := "failed with error 7" |}].
Proof.
  cbv zeta. split; [repeat split; reflexivity|].
  pose proof
    (failure_requeues_active
       (Scenario.at_time 10
          (Scenario.done (Scenario.result false 42 7 0) [] 43))
       (Scenario.holding []
          (Some (Request.setMSN 42 (Scenario.request 1 5 [x68; x69]))))
       (Request.setMSN 42 (Scenario.request 1 5 [x68; x69]))
       eq_refl eq_refl eq_refl eq_refl)
    as (_ & _ & _ & Hq & _ & Hslot & _).
  split; [exact Hq|]. split; [exact Hslot|]. reflexivity.
Defined.

(** C6, as stated, fails: with no active request, a successful session
    result whose MT status is 1 still resets the mailbox check timer and
    still has the receive buffer read and an inbound message dispatched. *)
Lemma stale_result_ignored_counterexample :
  let t := Scenario.idle in
  let env := Scenario.at_time 10
               (Scenario.done (Scenario.result true 42 0 1)
                  [x00; x01; xaa; xbb; xcc] 43) in
  let after := handleSessionResult env t in
  m_tx_request t = None
  /\ m_last (m_mbox_check_timer t) = 0
  /\ m_last (m_mbox_check_timer (fst after)) = 10
  /\ fst after <> t
  /\ filter is_inbound (snd after)
     = [DispatchKeepSrcEid
          {| IMC.rx_source := 1; IMC.rx_destination := 30;
             IMC.rx_data := [xaa; xbb; xcc] |}].
Proof.
  cbv zeta. repeat split; try reflexivity. discriminate.
Qed.

(** C6, amended: when a session result is handled while no request is
    active, the list of requests and the active slot are unchanged and no
    status is reported; the mailbox check timer is reset when the result
    reports success and left alone otherwise, nothing else of the task
    changes, and inbound handling runs exactly when the MT status of the
    result is 1. *)
Theorem result_without_active (env : Env) (t : Task) :
  let res := getSessionResult (driver env) in
  let after := handleSessionResult env t in
  m_tx_request t = None ->
  m_tx_requests (fst after) = m_tx_requests t
  /\ m_tx_request (fst after) = None
  /\ filter is_status (snd after) = []
  /\ fst after
     = (if isSuccessMO res
        then set_mbox_check_timer
               (Timer.reset (clock env) (m_mbox_check_timer t)) t
        else t)
  /\ snd after
     = DrvGetSessionResult
         :: (if getStatusMT res =? 1 then snd (handleSBD env (fst after))
             else []).
Proof.
  intros res after Hslot.
  set (mid := if isSuccessMO res
              then set_mbox_check_timer
                     (Timer.reset (clock env) (m_mbox_check_timer t)) t
              else t).
  assert (Hrun : after
                 = (mid,
                    DrvGetSessionResult
                      :: [] ++ (if getStatusMT res =? 1
                                then snd (handleSBD env mid) else []))).
  { subst after. apply handleSessionResult_run. fold res. subst mid.
    destruct (isSuccessMO res).
    - now apply dequeueTxRequest_slot.
    - now apply invalidateTxRequest_slot. }
  rewrite Hrun. cbn [fst snd app].
  repeat split.
  - subst mid. destruct (isSuccessMO res); reflexivity.
  - subst mid. destruct (isSuccessMO res); cbn; exact Hslot.
  - cbn [filter is_status].
    destruct (getStatusMT res =? 1); [apply handleSBD_no_status|reflexivity].
Qed.

Lemma result_without_active_witness :
  let t := Scenario.idle in
  let env := Scenario.at_time 10
               (Scenario.done (Scenario.result true 42 0 1)
                  [x00; x01; xaa; xbb; xcc] 43) in
  let after := handleSessionResult env t in
  m_tx_request t = None
  /\ m_tx_requests (fst after) = m_tx_requests t
  /\ m_tx_request (fst after) = None
  /\ filter is_status (snd after) = [].
Proof.
  cbv zeta. split; [reflexivity|].
  pose proof
    (result_without_active
       (Scenario.at_time 10
          (Scenario.done (Scenario.result true 42 0 1)
             [x00; x01; xaa; xbb; xcc] 43))
       Scenario.idle eq_refl) as (Hq & Hslot & Hstatus & _).
  split; [exact Hq|]. split; [exact Hslot|exact Hstatus].
Defined.

(** A resolution whose guard fails does nothing at all, and after any
    resolution the guard fails. *)
Lemma dequeueTxRequest_unmatched (msn : Z) (t : Task) :
  unmatched msn t = true -> dequeueTxRequest msn t = (t, []).
Proof.
  unfold unmatched, dequeueTxRequest, withTask.
  destruct (m_tx_request t) as [active|]; [|reflexivity].
  now intros ->.
Qed.

Lemma invalidateTxRequest_unmatched (msn err_code : Z) (t : Task) :
  unmatched msn t = true -> invalidateTxRequest msn err_code t = (t, []).
Proof.
  unfold unmatched, invalidateTxRequest, withTask.
  destruct (m_tx_request t) as [active|]; [|reflexivity].
  now intros ->.
Qed.

Lemma unmatched_after_dequeueTxRequest (msn : Z) (t : Task) :
  unmatched msn (fst (dequeueTxRequest msn t)) = true.
Proof.
  unfold unmatched at 1, dequeueTxRequest, withTask.
  destruct (m_tx_request t) as [active|] eqn:Hslot.
  - destruct (_ || _) eqn:Hg; cbn; [now rewrite Hslot|reflexivity].
  - cbn. now rewrite Hslot.
Qed.

Lemma unmatched_after_invalidateTxRequest (msn err_code : Z) (t : Task) :
  unmatched msn (fst (invalidateTxRequest msn err_code t)) = true.
Proof.
  unfold unmatched at 1, invalidateTxRequest, withTask.
  destruct (m_tx_request t) as [active|] eqn:Hslot.
  - destruct (_ || _) eqn:Hg; cbn; [now rewrite Hslot|reflexivity].
  - cbn. now rewrite Hslot.
Qed.

Lemma unmatched_active (msn : Z) (t : Task) (active : TxRequest) :
  m_tx_request t = Some active ->
  Request.hasValidMSN active = false \/ Request.getMSN active <> msn ->
  unmatched msn t = true.
Proof.
  intros Hslot Hguard. unfold unmatched. rewrite Hslot.
  destruct Hguard as [Hinvalid | Hother].
  - now rewrite Hinvalid.
  - apply Z.eqb_neq in Hother. rewrite Hother. apply orb_true_r.
Qed.

(** C7: when the sequence number of a session result is not the one of
    the active request, or the sequence number of the active request has
    been invalidated, confirming and invalidating both do nothing, and
    handling the result leaves the list of requests and the active slot
    unchanged and reports no status; and once a resolution has run, running
    either resolution again for the same sequence number does nothing. *)
Theorem unmatched_resolution_is_noop (env : Env) (t : Task)
    (active : TxRequest) (err_code : Z) :
  let msn := getSequenceMO (getSessionResult (driver env)) in
  m_tx_request t = Some active ->
  Request.hasValidMSN active = false \/ Request.getMSN active <> msn ->
  dequeueTxRequest msn t = (t, [])
  /\ invalidateTxRequest msn err_code t = (t, [])
  /\ m_tx_requests (fst (handleSessionResult env t)) = m_tx_requests t
  /\ m_tx_request (fst (handleSessionResult env t)) = Some active
  /\ filter is_status (snd (handleSessionResult env t)) = []
  /\ (forall (t0 : Task) (n code code' : Z),
        let confirmed := fst (dequeueTxRequest n t0) in
        let invalidated := fst (invalidateTxRequest n code t0) in
        dequeueTxRequest n confirmed = (confirmed, [])
        /\ invalidateTxRequest n code' confirmed = (confirmed, [])
        /\ dequeueTxRequest n invalidated = (invalidated, [])
        /\ invalidateTxRequest n code' invalidated = (invalidated, [])).
Proof.
  intros msn Hslot Hguard.
  pose proof (unmatched_active msn t active Hslot Hguard) as Hg.
  split; [now apply dequeueTxRequest_unmatched|].
  split; [now apply invalidateTxRequest_unmatched|].
  assert (Hmid : (if isSuccessMO (getSessionResult (driver env))
                  then dequeueTxRequest msn
                         (set_mbox_check_timer
                            (Timer.reset (clock env) (m_mbox_check_timer t))
                            t)
                  else invalidateTxRequest msn
                         (getStatusMO (getSessionResult (driver env))) t)
                 = (if isSuccessMO (getSessionResult (driver env))
                    then set_mbox_check_timer
                           (Timer.reset (clock env) (m_mbox_check_timer t)) t
                    else t, [])).
  { destruct (isSuccessMO _).
    - apply dequeueTxRequest_unmatched. exact Hg.
    - now apply invalidateTxRequest_unmatched. }
  rewrite (handleSessionResult_run env t _ _ Hmid). cbn [fst snd app].
  cbn [filter is_status].
  split; [destruct (isSuccessMO _); reflexivity|].
  split; [destruct (isSuccessMO _); exact Hslot|].
  split; [destruct (_ =? 1); [apply handleSBD_no_status|reflexivity]|].
  intros t0 n code code'. cbv zeta.
  repeat split.
  - apply dequeueTxRequest_unmatched, unmatched_after_dequeueTxRequest.
  - apply invalidateTxRequest_unmatched, unmatched_after_dequeueTxRequest.
  - apply dequeueTxRequest_unmatched, unmatched_after_invalidateTxRequest.
  - apply invalidateTxRequest_unmatched, unmatched_after_invalidateTxRequest.
Qed.

Lemma unmatched_resolution_is_noop_witness :
  let active := Request.setMSN 42 (Scenario.request 1 5 [x68; x69]) in
  let queued := Scenario.request 2 6 [x6a] in
  let t := Scenario.holding [queued] (Some active) in
  let env := Scenario.at_time 10
               (Scenario.done (Scenario.result false 41 7 0) [] 43) in
  (m_tx_request t = Some active
   /\ (Request.hasValidMSN active = false \/ Request.getMSN active <> 41))
  /\ dequeueTxRequest 41 t = (t, [])
  /\ invalidateTxRequest 41 7 t = (t, [])
  /\ m_tx_requests (fst (handleSessionResult env t)) = [queued]
  /\ m_tx_request (fst (handleSessionResult env t)) = Some active.
Proof.
  cbv zeta.
  assert (Hguard :
            Request.hasValidMSN
              (Request.setMSN 42 (Scenario.request 1 5 [x68; x69])) = false
            \/ Request.getMSN
                 (Request.setMSN 42 (Scenario.request 1 5 [x68; x69])) <> 41).
  { right. discriminate. }
  split; [split; [reflexivity|exact Hguard]|].
  pose proof
    (unmatched_resolution_is_noop
       (Scenario.at_time 10
          (Scenario.done (Scenario.result false 41 7 0) [] 43))
       (Scenario.holding [Scenario.request 2 6 [x6a]]
          (Some (Request.setMSN 42 (Scenario.request 1 5 [x68; x69]))))
       (Request.setMSN 42 (Scenario.request 1 5 [x68; x69]))
       7 eq_refl Hguard)
    as (Hdeq & Hinv & Hq & Hslot & _).
  split; [exact Hdeq|]. split; [exact Hinv|]. split; [exact Hq|exact Hslot].
Defined.

(** ** Inbound messages *)

Lemma lor_shiftl_low (hi lo : Z) :
  0 <= lo < 2 ^ 8 -> Z.lor (Z.shiftl hi 8) lo = 256 * hi + lo.
Proof.
  intros Hlo.
  assert (Hland : Z.land (Z.shiftl hi 8) lo = 0).
  { apply Z.bits_inj'. intros n Hn.
    rewrite Z.land_spec, Z.bits_0.
    destruct (Z.lt_ge_cases n 8) as [Hlt|Hge].
    - rewrite Z.shiftl_spec_low by lia. reflexivity.
    - replace lo with (lo mod 2 ^ 8) by (apply Z.mod_small; lia).
      rewrite Z.mod_pow2_bits_high by lia. apply andb_false_r. }
  pose proof (Z.add_lor_land (Z.shiftl hi 8) lo) as Hadd.
  pose proof (Z.shiftl_mul_pow2 hi 8 ltac:(lia)) as Hmul.
  rewrite Hland in Hadd. change (2 ^ 8) with 256 in Hmul. lia.
Qed.

Lemma bfr_at_range (i : nat) (bfr : list byte) : 0 <= bfr_at i bfr < 256.
Proof.
  unfold bfr_at. pose proof (Byte.to_N_bounded (nth i bfr x00)). lia.
Qed.

(** The source address [handleSBD] computes is the big-endian value of the
    first two bytes; the conversion to 16 bits loses nothing. *)
Lemma source_big_endian (bfr : list byte) :
  Z.lor (Z.shiftl (bfr_at 0 bfr) 8) (bfr_at 1 bfr) mod 2 ^ 16
  = 256 * bfr_at 0 bfr + bfr_at 1 bfr.
Proof.
  pose proof (bfr_at_range 0 bfr) as H0.
  pose proof (bfr_at_range 1 bfr) as H1.
  rewrite lor_shiftl_low by (change (2 ^ 8) with 256; lia).
  apply Z.mod_small. change (2 ^ 16) with 65536. lia.
Qed.

Lemma handleSBD_long (env : Env) (t : Task) (b0 b1 b2 : byte)
    (rest : list byte) :
  readBufferMT (driver env) = b0 :: b1 :: b2 :: rest ->
  let sbd :=
    {| IMC.rx_source := 256 * Z.of_N (Byte.to_N b0) + Z.of_N (Byte.to_N b1);
       IMC.rx_destination := getSystemId (m_ctx t);
       IMC.rx_data := b2 :: rest |} in
  snd (handleSBD env t)
  = [DrvReadBufferMT 340; ToText sbd; DispatchKeepSrcEid sbd].
Proof.
  intros Hbfr sbd. unfold handleSBD. rewrite Hbfr.
  assert (Hlen : (2 <? Z.of_nat (List.length (b0 :: b1 :: b2 :: rest))) = true).
  { apply Z.ltb_lt. cbn [List.length]. lia. }
  rewrite Hlen. unfold andThen, withTask, emit. cbn [fst snd app].
  rewrite source_big_endian, Nat2Z.id, firstn_all.
  reflexivity.
Qed.

Lemma handleSBD_short (env : Env) (t : Task) :
  (List.length (readBufferMT (driver env)) <= 2)%nat ->
  snd (handleSBD env t)
  = [DrvReadBufferMT 340;
     Err ("invalid SBD message of size "
          ++ str_u (Z.of_nat (List.length (readBufferMT (driver env)))))%string].
Proof.
  intros Hlen. unfold handleSBD.
  assert (Hc : (2 <? Z.of_nat (List.length (readBufferMT (driver env))))
               = false).
  { apply Z.ltb_ge. lia. }
  rewrite Hc. reflexivity.
Qed.

(** C8: when the read of the receive buffer yields more than two bytes,
    one inbound message is dispatched whose source is the big-endian value
    of the first two bytes, whose destination is this system and whose
    payload is the rest of the bytes; when the read yields two bytes or
    fewer, an error is logged and no inbound message is dispatched; the
    read [0x00, 0x01, 0xAA, 0xBB, 0xCC] gives source 1 and payload
    [0xAA, 0xBB, 0xCC]. *)
Theorem handleSBD_inbound (env : Env) (t : Task) :
  let bfr := readBufferMT (driver env) in
  (forall b0 b1 b2 rest,
      bfr = b0 :: b1 :: b2 :: rest ->
      let sbd :=
        {| IMC.rx_source :=
             256 * Z.of_N (Byte.to_N b0) + Z.of_N (Byte.to_N b1);
           IMC.rx_destination := getSystemId (m_ctx t);
           IMC.rx_data := b2 :: rest |} in
      snd (handleSBD env t)
      = [DrvReadBufferMT 340; ToText sbd; DispatchKeepSrcEid sbd]
      /\ filter is_inbound (snd (handleSBD env t)) = [DispatchKeepSrcEid sbd])
  /\ ((List.length bfr <= 2)%nat ->
      snd (handleSBD env t)
      = [DrvReadBufferMT 340;
         Err ("invalid SBD message of size "
              ++ str_u (Z.of_nat (List.length bfr)))%string]
      /\ filter is_inbound (snd (handleSBD env t)) = [])
  /\ (bfr = [x00; x01; xaa; xbb; xcc] ->
      filter is_inbound (snd (handleSBD env t))
      = [DispatchKeepSrcEid
           {| IMC.rx_source := 1;
              IMC.rx_destination := getSystemId (m_ctx t);
              IMC.rx_data := [xaa; xbb; xcc] |}])
  /\ fst (handleSBD env t) = t.
Proof.
  intros bfr. split; [|split; [|split]].
  - intros b0 b1 b2 rest Hbfr sbd.
    rewrite (handleSBD_long env t b0 b1 b2 rest Hbfr). split; reflexivity.
  - intros Hlen. rewrite (handleSBD_short env t Hlen). split; reflexivity.
  - intros Hbfr.
    rewrite (handleSBD_long env t x00 x01 xaa [xbb; xcc] Hbfr). reflexivity.
  - apply handleSBD_task.
Qed.

Lemma handleSBD_inbound_witness :
  let long := Scenario.at_time 10
                (Scenario.done (Scenario.result true 42 0 1)
                   [x00; x01; xaa; xbb; xcc] 43) in
  let short := Scenario.at_time 10
                 (Scenario.done (Scenario.result true 42 0 1)
                    [x00; x01] 43) in
  filter is_inbound (snd (handleSBD long Scenario.idle))
  = [DispatchKeepSrcEid
       {| IMC.rx_source := 1; IMC.rx_destination := 30;
          IMC.rx_data := [xaa; xbb; xcc] |}]
  /\ snd (handleSBD short Scenario.idle)
     = [DrvReadBufferMT 340; Err "invalid SBD message of size 2"].
Proof.
  cbv zeta. split.
  - destruct (handleSBD_inbound
                (Scenario.at_time 10
                   (Scenario.done (Scenario.result true 42 0 1)
                      [x00; x01; xaa; xbb; xcc] 43))
                Scenario.idle) as (_ & _ & Hex & _).
    exact (Hex eq_refl).
  - destruct (handleSBD_inbound
                (Scenario.at_time 10
                   (Scenario.done (Scenario.result true 42 0 1)
                      [x00; x01] 43))
                Scenario.idle) as (_ & Hshort & _).
    destruct (Hshort ltac:(cbn; lia)) as [Htrace _]. exact Htrace.
Defined.

(** ** Traces of a cycle *)

Section Traces.

Variable env : Env.
Variable P : Event -> Prop.

Hypothesis P_log : forall line, P (Debug line).
Hypothesis P_err : forall line, P (Err line).
Hypothesis P_status : forall st, P (Dispatch st).
Hypothesis P_text : forall sbd, P (ToText sbd).
Hypothesis P_result : P DrvGetSessionResult.
Hypothesis P_clear : P DrvClearBufferMO.
Hypothesis P_read : forall size, P (DrvReadBufferMT size).
Hypothesis P_inbound :
  forall t sbd,
    In (DispatchKeepSrcEid sbd) (snd (handleSBD env t)) ->
    P (DispatchKeepSrcEid sbd).

Lemma handleSBD_trace (t : Task) : Forall P (snd (handleSBD env t)).
Proof.
  apply Forall_forall. intros e Hin.
  assert (Hcases : (exists size, e = DrvReadBufferMT size)
                   \/ (exists sbd, e = ToText sbd)
                   \/ (exists sbd, e = DispatchKeepSrcEid sbd)
                   \/ (exists line, e = Err line)).
  { revert Hin. act. destruct (2 <? _); cbn; intros Hin.
    - destruct Hin as [<-|[<-|[<-|[]]]]; eauto.
    - destruct Hin as [<-|[<-|[]]]; eauto 6. }
  destruct Hcases as [[size ->]|[[sbd ->]|[[sbd ->]|[line ->]]]]; auto.
  now apply (P_inbound t).
Qed.

Lemma dequeueTxRequest_trace (msn : Z) (t : Task) :
  Forall P (snd (dequeueTxRequest msn t)).
Proof.
  act. destruct (m_tx_request t) as [active|]; [|constructor].
  destruct (_ || _); cbn; auto.
Qed.

Lemma invalidateTxRequest_trace (msn err_code : Z) (t : Task) :
  Forall P (snd (invalidateTxRequest msn err_code t)).
Proof.
  act. destruct (m_tx_request t) as [active|]; [|constructor].
  destruct (_ || _); cbn; auto.
Qed.

Lemma resolveResult_trace (t : Task) :
  Forall P (snd (resolveResult env t)).
Proof.
  unfold resolveResult. destruct (hasSessionResult _); [|constructor].
  rewrite (handleSessionResult_run env t _ _ (surjective_pairing _)).
  cbn [snd]. constructor; [exact P_result|].
  apply Forall_app. split.
  - destruct (isSuccessMO _).
    + apply dequeueTxRequest_trace.
    + apply invalidateTxRequest_trace.
  - destruct (_ =? 1); [apply handleSBD_trace|constructor].
Qed.

End Traces.

Lemma filter_none (f : Event -> bool) (l : list Event) :
  Forall (fun e => f e = false) l -> filter f l = [].
Proof.
  induction 1 as [|e l He _ IH]; cbn; [reflexivity|]. now rewrite He.
Qed.

(** Handling a session result never polls the mailbox nor sends. *)
Lemma resolveResult_quiet (env : Env) (t : Task) :
  filter is_poll (snd (resolveResult env t)) = []
  /\ filter is_send (snd (resolveResult env t)) = [].
Proof.
  split; apply filter_none; apply resolveResult_trace; reflexivity.
Qed.

(** Handling a session result never takes a request off the list. *)
Lemma resolveResult_keeps_requests (env : Env) (t : Task) :
  m_tx_requests t <> [] -> m_tx_requests (fst (resolveResult env t)) <> [].
Proof.
  intros Hq. unfold resolveResult. destruct (hasSessionResult _); [|exact Hq].
  rewrite (handleSessionResult_run env t _ _ (surjective_pairing _)).
  cbn [fst]. destruct (isSuccessMO _).
  - now rewrite dequeueTxRequest_queue.
  - unfold invalidateTxRequest, withTask.
    destruct (m_tx_request t) as [active|]; [|exact Hq].
    destruct (_ || _); [exact Hq|]. act. cbn.
    intros Hnil. apply (f_equal (@List.length _)) in Hnil.
    rewrite insert_request_length in Hnil. discriminate.
Qed.

(** With no active request, handling a session result leaves the list of
    requests and the active slot as they are. *)
Lemma resolveResult_requests_without_active (env : Env) (t : Task) :
  m_tx_request t = None ->
  m_tx_requests (fst (resolveResult env t)) = m_tx_requests t.
Proof.
  intros Hslot. unfold resolveResult.
  destruct (hasSessionResult _); [|reflexivity].
  rewrite (handleSessionResult_run env t _ _ (surjective_pairing _)).
  cbn [fst]. destruct (isSuccessMO _).
  - now rewrite dequeueTxRequest_queue.
  - now rewrite invalidateTxRequest_slot.
Qed.

Lemma resolveResult_slot_without_active (env : Env) (t : Task) :
  m_tx_request t = None -> m_tx_request (fst (resolveResult env t)) = None.
Proof.
  intros Hslot. unfold resolveResult.
  destruct (hasSessionResult _); [|exact Hslot].
  rewrite (handleSessionResult_run env t _ _ (surjective_pairing _)).
  cbn [fst]. destruct (isSuccessMO _).
  - rewrite dequeueTxRequest_slot; [exact Hslot|exact Hslot].
  - now rewrite invalidateTxRequest_slot.
Qed.

(** The trace of a cycle past the busy test: the resolution of the result,
    then what the gates let through. *)
Lemma processQueue_trace (env : Env) (t : Task) :
  isBusy (driver env) = false ->
  snd (processQueue env t)
  = snd (resolveResult env t)
    ++ (if (getRSSI (driver env) =? 0) || isCooling (driver env) then []
        else snd (pollOrSend env (fst (resolveResult env t)))).
Proof.
  intros Hbusy. unfold processQueue. rewrite Hbusy.
  unfold andThen. cbn [snd].
  destruct (getRSSI _ =? 0); [reflexivity|].
  destruct (isCooling _); reflexivity.
Qed.

(** The polls and the sends of a cycle are those of its last step. *)
Lemma processQueue_polls (env : Env) (t : Task) :
  filter is_poll (snd (processQueue env t))
  = (if isBusy (driver env) then []
     else if (getRSSI (driver env) =? 0) || isCooling (driver env) then []
          else filter is_poll (snd (pollOrSend env (fst (resolveResult env t))))).
Proof.
  destruct (isBusy (driver env)) eqn:Hbusy.
  - unfold processQueue. now rewrite Hbusy.
  - rewrite processQueue_trace by exact Hbusy. rewrite filter_app.
    destruct (resolveResult_quiet env t) as [-> _]. cbn [app].
    destruct ((getRSSI (driver env) =? 0) || isCooling (driver env));
      reflexivity.
Qed.

Lemma processQueue_sends (env : Env) (t : Task) :
  filter is_send (snd (processQueue env t))
  = (if isBusy (driver env) then []
     else if (getRSSI (driver env) =? 0) || isCooling (driver env) then []
          else filter is_send (snd (pollOrSend env (fst (resolveResult env t))))).
Proof.
  destruct (isBusy (driver env)) eqn:Hbusy.
  - unfold processQueue. now rewrite Hbusy.
  - rewrite processQueue_trace by exact Hbusy. rewrite filter_app.
    destruct (resolveResult_quiet env t) as [_ ->]. cbn [app].
    destruct ((getRSSI (driver env) =? 0) || isCooling (driver env));
      reflexivity.
Qed.

Lemma pollOrSend_polls (env : Env) (t : Task) :
  filter is_poll (snd (pollOrSend env t))
  = match m_tx_requests t with
    | [] =>
        if hasRingAlert (driver env) then [DrvCheckMailBoxAlert]
        else if (0 <? getQueuedMT (driver env))
                || Timer.overflow (clock env) (m_mbox_check_timer t)
             then [DrvCheckMailBox]
             else []
    | _ :: _ => []
    end.
Proof.
  unfold pollOrSend, withTask. destruct (m_tx_requests t); [|reflexivity].
  destruct (hasRingAlert _); [reflexivity|].
  destruct ((0 <? getQueuedMT (driver env))
            || Timer.overflow (clock env) (m_mbox_check_timer t));
    reflexivity.
Qed.

Lemma pollOrSend_sends (env : Env) (t : Task) :
  m_tx_requests t = [] -> filter is_send (snd (pollOrSend env t)) = [].
Proof.
  intros Hq. unfold pollOrSend, withTask. rewrite Hq.
  destruct (hasRingAlert _); [reflexivity|].
  destruct ((0 <? getQueuedMT (driver env))
            || Timer.overflow (clock env) (m_mbox_check_timer t));
    reflexivity.
Qed.

(** ** Mailbox polls *)

(** C9: a cycle triggers at most one mailbox poll.  When the gates pass
    (driver not busy, RSSI not zero, not cooling) and the list of requests
    is empty once the session result, if any, has been handled, the poll is
    a mailbox alert check when the ring alert is set, and otherwise a
    mailbox check when messages are queued at the gateway or the mailbox
    check timer has overflowed, and nothing is sent; a cycle with a request
    in the list triggers no poll of either kind; and while no request is
    active, handling the session result leaves the list as it was when the
    cycle began. *)
Theorem mailbox_poll_decision (env : Env) (t : Task) :
  let drv := driver env in
  let resolved := fst (resolveResult env t) in
  let polls := filter is_poll (snd (processQueue env t)) in
  (List.length polls <= 1)%nat
  /\ (m_tx_requests t <> [] -> polls = [])
  /\ (m_tx_requests resolved <> [] -> polls = [])
  /\ (m_tx_request t = None -> m_tx_requests resolved = m_tx_requests t)
  /\ (isBusy drv = false ->
      getRSSI drv <> 0 ->
      isCooling drv = false ->
      m_tx_requests resolved = [] ->
      polls
      = (if hasRingAlert drv then [DrvCheckMailBoxAlert]
         else if (0 <? getQueuedMT drv)
                 || Timer.overflow (clock env) (m_mbox_check_timer resolved)
              then [DrvCheckMailBox]
              else [])
      /\ filter is_send (snd (processQueue env t)) = []).
Proof.
  intros drv resolved polls. subst polls drv resolved.
  rewrite processQueue_polls, processQueue_sends, pollOrSend_polls.
  assert (Hfull : m_tx_requests (fst (resolveResult env t)) <> [] ->
                  (if isBusy (driver env) then []
                   else if (getRSSI (driver env) =? 0)
                           || isCooling (driver env) then []
                        else match m_tx_requests (fst (resolveResult env t))
                             with
                             | [] =>
                                 if hasRingAlert (driver env)
                                 then [DrvCheckMailBoxAlert]
                                 else if (0 <? getQueuedMT (driver env))
                                         || Timer.overflow (clock env)
                                              (m_mbox_check_timer
                                                 (fst (resolveResult env t)))
                                      then [DrvCheckMailBox]
                                      else []
                             | _ :: _ => []
                             end) = []).
  { intros Hq. destruct (isBusy _); [reflexivity|].
    destruct (_ || _); [reflexivity|].
    destruct (m_tx_requests (fst (resolveResult env t))); congruence. }
  split; [|split; [|split; [exact Hfull|split]]].
  - destruct (isBusy _); [cbn; lia|].
    destruct ((getRSSI (driver env) =? 0) || isCooling (driver env));
      [cbn; lia|].
    destruct (m_tx_requests (fst (resolveResult env t))); [|cbn; lia].
    destruct (hasRingAlert _); [cbn; lia|].
    destruct (_ || _); cbn; lia.
  - intros Hq. apply Hfull. now apply resolveResult_keeps_requests.
  - apply resolveResult_requests_without_active.
  - intros Hbusy Hrssi Hcool Hq. apply Z.eqb_neq in Hrssi.
    rewrite Hbusy, Hrssi, Hcool, Hq. cbn [orb].
    split; [reflexivity|]. now apply pollOrSend_sends.
Qed.

Lemma mailbox_poll_decision_witness :
  let alert := Scenario.at_time 10 (Scenario.ringing true 3) in
  let queued := Scenario.at_time 10 (Scenario.ringing false 3) in
  let sending := Scenario.holding [Scenario.request 1 5 [x68]] None in
  filter is_poll (snd (processQueue alert Scenario.idle))
  = [DrvCheckMailBoxAlert]
  /\ filter is_poll (snd (processQueue queued Scenario.idle))
     = [DrvCheckMailBox]
  /\ filter is_poll (snd (processQueue alert sending)) = [].
Proof.
  cbv zeta.
  destruct (mailbox_poll_decision
              (Scenario.at_time 10 (Scenario.ringing true 3)) Scenario.idle)
    as (_ & _ & _ & _ & Halert).
  destruct (mailbox_poll_decision
              (Scenario.at_time 10 (Scenario.ringing false 3)) Scenario.idle)
    as (_ & _ & _ & _ & Hqueued).
  destruct (mailbox_poll_decision
              (Scenario.at_time 10 (Scenario.ringing true 3))
              (Scenario.holding [Scenario.request 1 5 [x68]] None))
    as (_ & Hfull & _).
  split; [|split].
  - apply Halert; solve [reflexivity | discriminate].
  - apply Hqueued; solve [reflexivity | discriminate].
  - apply Hfull. discriminate.
Defined.

(** ** Size of inbound payloads *)

Lemma handleSBD_payload_length (env : Env) (t : Task)
    (sbd : IMC.IridiumMsgRx) :
  (List.length (readBufferMT (driver env)) <= 340)%nat ->
  In (DispatchKeepSrcEid sbd) (snd (handleSBD env t)) ->
  (0 < List.length (IMC.rx_data sbd) <= 338)%nat.
Proof.
  intros Hbound Hin.
  destruct (readBufferMT (driver env)) as [|b0 [|b1 [|b2 rest]]] eqn:Hbfr.
  - rewrite handleSBD_short in Hin by (rewrite Hbfr; cbn; lia).
    cbn in Hin. destruct Hin as [H|[H|[]]]; discriminate.
  - rewrite handleSBD_short in Hin by (rewrite Hbfr; cbn; lia).
    cbn in Hin. destruct Hin as [H|[H|[]]]; discriminate.
  - rewrite handleSBD_short in Hin by (rewrite Hbfr; cbn; lia).
    cbn in Hin. destruct Hin as [H|[H|[]]]; discriminate.
  - rewrite (handleSBD_long env t b0 b1 b2 rest Hbfr) in Hin.
    cbn [In] in Hin. destruct Hin as [H|[H|[H|[]]]]; try discriminate.
    injection H as <-. cbn [IMC.rx_data List.length] in *. lia.
Qed.

Lemma pollOrSend_no_inbound (env : Env) (t : Task) (sbd : IMC.IridiumMsgRx) :
  ~ In (DispatchKeepSrcEid sbd) (snd (pollOrSend env t)).
Proof.
  unfold pollOrSend, withTask. destruct (m_tx_requests t).
  - destruct (hasRingAlert _); [|destruct (_ || _)]; cbn;
      intros H; repeat (destruct H as [H|H]; try discriminate); exact H.
  - act. cbn. intros H.
    repeat (destruct H as [H|H]; try discriminate); exact H.
Qed.

(** C10: when the read of the receive buffer stays within the 340 bytes
    of the buffer, every inbound message dispatched by inbound handling,
    called on its own or within a cycle, has a payload of at least one and
    at most 338 bytes. *)
Theorem inbound_payload_bounded (env : Env) (t : Task)
    (sbd : IMC.IridiumMsgRx) :
  (List.length (readBufferMT (driver env)) <= 340)%nat ->
  In (DispatchKeepSrcEid sbd) (snd (handleSBD env t))
  \/ In (DispatchKeepSrcEid sbd) (snd (processQueue env t)) ->
  (0 < List.length (IMC.rx_data sbd) <= 338)%nat.
Proof.
  intros Hbound [Hin | Hin].
  - now apply (handleSBD_payload_length env t).
  - destruct (isBusy (driver env)) eqn:Hbusy.
    { unfold processQueue in Hin. rewrite Hbusy in Hin. destruct Hin. }
    rewrite processQueue_trace in Hin by exact Hbusy.
    apply in_app_or in Hin. destruct Hin as [Hin | Hin].
    + pose proof (resolveResult_trace env
                    (fun e => forall m, e = DispatchKeepSrcEid m ->
                                (0 < List.length (IMC.rx_data m) <= 338)%nat))
        as Htrace.
      cbv beta in Htrace.
      assert (Hall : Forall
                       (fun e => forall m, e = DispatchKeepSrcEid m ->
                          (0 < List.length (IMC.rx_data m) <= 338)%nat)
                       (snd (resolveResult env t))).
      { apply Htrace; try discriminate.
        intros t' m Hm m' Heq. injection Heq as <-.
        now apply (handleSBD_payload_length env t'). }
      rewrite Forall_forall in Hall. now apply (Hall _ Hin).
    + destruct (_ || _); [destruct Hin|].
      now apply pollOrSend_no_inbound in Hin.
Qed.

Lemma inbound_payload_bounded_witness :
  let env := Scenario.at_time 10
               (Scenario.done (Scenario.result true 42 0 1)
                  [x00; x01; xaa; xbb; xcc] 43) in
  let sbd := {| IMC.rx_source := 1; IMC.rx_destination := 30;
                IMC.rx_data := [xaa; xbb; xcc] |} in
  ((List.length (readBufferMT (driver env)) <= 340)%nat
   /\ In (DispatchKeepSrcEid sbd) (snd (handleSBD env Scenario.idle)))
  /\ (0 < List.length (IMC.rx_data sbd) <= 338)%nat.
Proof.
  cbv zeta.
  assert (Hlen : (List.length
                    (readBufferMT
                       (driver
                          (Scenario.at_time 10
                             (Scenario.done (Scenario.result true 42 0 1)
                                [x00; x01; xaa; xbb; xcc] 43)))) <= 340)%nat).
  { cbn. lia. }
  assert (Hin : In (DispatchKeepSrcEid
                      {| IMC.rx_source := 1; IMC.rx_destination := 30;
                         IMC.rx_data := [xaa; xbb; xcc] |})
                   (snd (handleSBD
                           (Scenario.at_time 10
                              (Scenario.done (Scenario.result true 42 0 1)
                                 [x00; x01; xaa; xbb; xcc] 43))
                           Scenario.idle))).
  { right. right. left. reflexivity. }
  split; [split; [exact Hlen|exact Hin]|].
  exact (inbound_payload_bounded _ Scenario.idle _ Hlen (or_introl Hin)).
Defined.

(** ** The active slot over a run *)

(** In every state a running task goes through, the active slot is empty:
    no member function stores a request in it. *)
Lemma reachable_slot_empty (t : Task) :
  reachable t -> m_tx_request t = None.
Proof.
  induction 1 as [ctx args now|t i _ IH].
  - reflexivity.
  - destruct i as [msg|now|env]; cbn [step].
    + act. cbn. exact IH.
    + act. destruct (m_driver t); exact IH.
    + unfold processQueue. destruct (isBusy _); [exact IH|].
      unfold andThen. cbn [fst].
      pose proof (resolveResult_slot_without_active env t IH) as Hres.
      destruct (_ =? 0); [exact Hres|].
      destruct (isCooling _); [exact Hres|].
      now rewrite pollOrSend_slot.
Qed.

Lemma reachable_slot_empty_witness :
  let t := fst (run [Arrive (Scenario.msg 1 5 [x61]);
                     Cycle (Scenario.at_time 10 (Scenario.ready 42))]
                  Scenario.idle) in
  reachable t /\ m_tx_requests t = [] /\ m_tx_request t = None.
Proof.
  cbv zeta.
  assert (Hreach : reachable
                     (fst (run [Arrive (Scenario.msg 1 5 [x61]);
                                Cycle (Scenario.at_time 10 (Scenario.ready 42))]
                             Scenario.idle))).
  { apply (reachable_step _ (Cycle _)). apply (reachable_step _ (Arrive _)).
    apply reachable_new. }
  split; [exact Hreach|]. split; [reflexivity|].
  exact (reachable_slot_empty _ Hreach).
Defined.

(** * Further properties of the task *)

(** ** Arrival of a request *)

Lemma insert_request_perm (request : TxRequest) (l : list TxRequest) :
  Permutation (insert_request request l) (request :: l).
Proof.
  induction l as [|itr rest IH]; cbn [insert_request].
  - apply Permutation_refl.
  - destruct (_ <? _); [apply Permutation_refl|].
    eapply Permutation_trans; [apply perm_skip, IH|apply perm_swap].
Qed.

Lemma insert_request_back (request : TxRequest) (l : list TxRequest) :
  Forall (fun x => Request.getTimeToLive x <= Request.getTimeToLive request) l ->
  insert_request request l = l ++ [request].
Proof.
  induction 1 as [|itr rest Hitr _ IH]; cbn [insert_request app].
  - reflexivity.
  - apply Z.ltb_ge in Hitr. now rewrite Hitr, IH.
Qed.

(** [consume] takes every message: the request built from it, with the
    destination resolved by the context and no sequence number, joins the
    requests already in the list, none of which is lost or moved relative
    to the others; one QUEUED status goes back to the sender of the
    message; the active slot and the timer are left alone.  There is no
    test on the identifier: a message whose identifier is already in the
    list is queued as well. *)
Theorem consume_accepts_every_request (msg : IMC.IridiumMsgTx) (t : Task) :
  let request :=
    Request.new (IMC.getSource msg) (IMC.getSourceEntity msg)
      (resolveSystemName (m_ctx t) (IMC.destination msg))
      (IMC.req_id msg) (IMC.ttl msg) (IMC.data msg) in
  let after := consume msg t in
  snd after = [Debug "queueing message"; Dispatch (queued_status msg)]
  /\ Permutation (m_tx_requests (fst after)) (request :: m_tx_requests t)
  /\ (exists before behind,
        m_tx_requests t = before ++ behind
        /\ m_tx_requests (fst after) = before ++ request :: behind)
  /\ List.length (m_tx_requests (fst after))
     = S (List.length (m_tx_requests t))
  /\ Request.hasValidMSN request = false
  /\ m_tx_request (fst after) = m_tx_request t
  /\ m_mbox_check_timer (fst after) = m_mbox_check_timer t.
Proof.
  intros request after. subst after. act. cbn [fst snd app].
  cbn [set_tx_requests m_tx_requests m_tx_request m_mbox_check_timer].
  fold request.
  split; [reflexivity|]. split; [apply insert_request_perm|]. split.
  { destruct (insert_request_split request (m_tx_requests t))
      as (before & behind & Hq & Hins & _).
    exists before, behind. now split. }
  split; [apply insert_request_length|]. repeat split.
Qed.

(** ** Where a request is inserted *)

(** The two ends of the insertion: a request whose time to live is not
    smaller than that of any request in the list goes to the back, so that
    requests of equal time to live leave in the order they came; a request
    whose time to live is smaller than that of the head goes to the front;
    in every case the list afterwards holds the same requests as before and
    the new one. *)
Theorem enqueueTxRequest_ends (request : TxRequest) (t : Task) :
  let after := m_tx_requests (fst (enqueueTxRequest request t)) in
  Permutation after (request :: m_tx_requests t)
  /\ (Forall (fun x => Request.getTimeToLive x
                       <= Request.getTimeToLive request) (m_tx_requests t) ->
      after = m_tx_requests t ++ [request])
  /\ (forall head rest,
        m_tx_requests t = head :: rest ->
        Request.getTimeToLive request < Request.getTimeToLive head ->
        after = request :: head :: rest)
  /\ snd (enqueueTxRequest request t) = [].
Proof.
  intros after. subst after. unfold enqueueTxRequest, modify. cbn [fst snd].
  cbn [set_tx_requests m_tx_requests].
  split; [apply insert_request_perm|]. split; [apply insert_request_back|].
  split; [|reflexivity].
  intros head rest Hq Hlt. rewrite Hq. cbn [insert_request].
  apply Z.ltb_lt in Hlt. now rewrite Hlt.
Qed.

Lemma enqueueTxRequest_ends_witness :
  let a := Scenario.request 1 3 [x61] in
  let b := Scenario.request 2 3 [x62] in
  let urgent := Scenario.request 3 1 [x63] in
  let t := Scenario.holding [a] None in
  m_tx_requests (fst (enqueueTxRequest b t)) = [a; b]
  /\ m_tx_requests (fst (enqueueTxRequest urgent t)) = [urgent; a].
Proof.
  cbv zeta. split.
  - destruct (enqueueTxRequest_ends (Scenario.request 2 3 [x62])
                (Scenario.holding [Scenario.request 1 3 [x61]] None))
      as (_ & Hback & _).
    apply Hback. repeat constructor. cbn. lia.
  - destruct (enqueueTxRequest_ends (Scenario.request 3 1 [x63])
                (Scenario.holding [Scenario.request 1 3 [x61]] None))
      as (_ & _ & Hfront & _).
    apply (Hfront (Scenario.request 1 3 [x61]) []); [reflexivity|].
    cbn. lia.
Defined.

(** ** Shutdown, whatever the task holds *)

Lemma shutdown_statuses_are_errors (l : list TxRequest) :
  List.length
    (filter is_error_status (map (fun req => Dispatch (shutdown_status req)) l))
  = List.length l.
Proof.
  induction l as [|req rest IH]; cbn; [reflexivity|]. now rewrite IH.
Qed.

(** The destructor reports one ERROR status with the text "task is shutting
    down" for each request in the list, in the order of the list, and
    nothing else; it reports nothing for the active request; afterwards the
    list and the active slot are empty.  With an empty list the destructor
    is silent even when a request is active. *)
Theorem shutdown_drains_queue (t : Task) :
  let after := Task_delete t in
  snd after = map (fun req => Dispatch (shutdown_status req)) (m_tx_requests t)
  /\ List.length (filter is_error_status (snd after))
     = List.length (m_tx_requests t)
  /\ List.length (snd after) = List.length (m_tx_requests t)
  /\ m_tx_requests (fst after) = []
  /\ m_tx_request (fst after) = None.
Proof.
  intros after. subst after.
  unfold Task_delete, andThen, withTask, modify. cbn [fst snd app].
  cbn [set_tx_request m_tx_requests].
  rewrite drain_trace.
  destruct (drain_task (m_tx_requests t) (set_tx_request None t))
    as [Hq Hslot].
  rewrite Hq, Hslot. cbn [set_tx_request m_tx_requests m_tx_request].
  split; [reflexivity|]. split.
  { apply shutdown_statuses_are_errors. }
  split; [apply length_map|].
  split; [destruct (m_tx_requests t); reflexivity|reflexivity].
Qed.

(** ** The last step of a cycle *)

Lemma pollOrSend_cases (env : Env) (t : Task) :
  pollOrSend env t
  = match m_tx_requests t with
    | [] =>
        (t,
         if hasRingAlert (driver env) then [DrvCheckMailBoxAlert]
         else if (0 <? getQueuedMT (driver env))
                 || Timer.overflow (clock env) (m_mbox_check_timer t)
              then [DrvCheckMailBox]
              else [])
    | front :: rest =>
        (set_tx_requests rest t,
         [DrvGetMOMSN; DrvSendSBD (Request.getData front)])
    end.
Proof.
  unfold pollOrSend, withTask. destruct (m_tx_requests t); [|reflexivity].
  destruct (hasRingAlert _); [reflexivity|].
  destruct ((0 <? getQueuedMT (driver env))
            || Timer.overflow (clock env) (m_mbox_check_timer t));
    reflexivity.
Qed.

Lemma processQueue_state (env : Env) (t : Task) :
  isBusy (driver env) = false ->
  fst (processQueue env t)
  = (if (getRSSI (driver env) =? 0) || isCooling (driver env)
     then fst (resolveResult env t)
     else fst (pollOrSend env (fst (resolveResult env t)))).
Proof.
  intros Hbusy. unfold processQueue. rewrite Hbusy.
  unfold andThen. cbn [fst].
  destruct (getRSSI _ =? 0); [reflexivity|].
  destruct (isCooling _); reflexivity.
Qed.

Lemma resolveResult_no_sequence_request (env : Env) (t : Task) :
  filter is_sequence_request (snd (resolveResult env t)) = [].
Proof.
  apply filter_none. apply resolveResult_trace; reflexivity.
Qed.

Lemma resolveResult_length (env : Env) (t : Task) :
  (List.length (m_tx_requests t)
   <= List.length (m_tx_requests (fst (resolveResult env t))))%nat.
Proof.
  unfold resolveResult. destruct (hasSessionResult _); [|cbn; lia].
  rewrite (handleSessionResult_run env t _ _ (surjective_pairing _)).
  cbn [fst]. destruct (isSuccessMO _).
  - rewrite dequeueTxRequest_queue. cbn. lia.
  - unfold invalidateTxRequest, withTask.
    destruct (m_tx_request t) as [active|]; [|cbn; lia].
    destruct (_ || _); [cbn; lia|]. act. cbn [fst].
    cbn [set_tx_request set_tx_requests m_tx_requests].
    rewrite insert_request_length. lia.
Qed.

(** ** The gates of a cycle *)

(** A busy driver stops the whole cycle: nothing changes and nothing is
    done, a session result that is waiting stays unhandled.  No service
    (RSSI zero) and cooldown stop the cycle only after the session result
    has been handled.  Under any of the three, nothing is sent, no sequence
    number is requested, no mailbox poll is triggered and no request leaves
    the list. *)
Theorem gates_suppress_send_and_poll (env : Env) (t : Task) :
  let drv := driver env in
  let after := processQueue env t in
  (isBusy drv = true -> after = (t, []))
  /\ (isBusy drv = false -> getRSSI drv = 0 \/ isCooling drv = true ->
      after = resolveResult env t)
  /\ (isBusy drv = true \/ getRSSI drv = 0 \/ isCooling drv = true ->
      filter is_send (snd after) = []
      /\ filter is_sequence_request (snd after) = []
      /\ filter is_poll (snd after) = []
      /\ (List.length (m_tx_requests t)
          <= List.length (m_tx_requests (fst after)))%nat).
Proof.
  intros drv after. subst drv after.
  assert (Hbusy : isBusy (driver env) = true -> processQueue env t = (t, [])).
  { intros H. unfold processQueue. now rewrite H. }
  assert (Hgate : isBusy (driver env) = false ->
                  getRSSI (driver env) = 0 \/ isCooling (driver env) = true ->
                  processQueue env t = resolveResult env t).
  { intros Hb Hg.
    assert (Hor : (getRSSI (driver env) =? 0) || isCooling (driver env)
                  = true).
    { destruct Hg as [H|H]; rewrite H; [reflexivity|apply orb_true_r]. }
    rewrite (surjective_pairing (processQueue env t)).
    rewrite processQueue_state, processQueue_trace by exact Hb.
    rewrite Hor, app_nil_r. symmetry. apply surjective_pairing. }
  split; [exact Hbusy|]. split; [exact Hgate|].
  intros Hany. destruct (isBusy (driver env)) eqn:Hb.
  - rewrite Hbusy by reflexivity. cbn. repeat split. lia.
  - assert (Hg : getRSSI (driver env) = 0 \/ isCooling (driver env) = true).
    { destruct Hany as [H|H]; [discriminate|exact H]. }
    rewrite Hgate by (reflexivity || exact Hg).
    destruct (resolveResult_quiet env t) as [Hpoll Hsend].
    split; [exact Hsend|].
    split; [apply resolveResult_no_sequence_request|].
    split; [exact Hpoll|apply resolveResult_length].
Qed.

Lemma gates_suppress_send_and_poll_witness :
  let r := Scenario.request 1 5 [x68] in
  let t := Scenario.holding [r] None in
  let cooling :=
    Scenario.at_time 10
      {| isBusy := false; hasSessionResult := true;
         getSessionResult := Scenario.result true 42 0 1; getRSSI := 5;
         isCooling := true; hasRingAlert := true; getQueuedMT := 2;
         getMOMSN := 43; readBufferMT := [x00; x01; xaa] |} in
  processQueue cooling t = resolveResult cooling t
  /\ filter is_send (snd (processQueue cooling t)) = []
  /\ filter is_poll (snd (processQueue cooling t)) = []
  /\ filter is_inbound (snd (processQueue cooling t))
     = [DispatchKeepSrcEid
          {| IMC.rx_source := 1; IMC.rx_destination := 30;
             IMC.rx_data := [xaa] |}].
Proof.
  cbv zeta.
  destruct (gates_suppress_send_and_poll
              (Scenario.at_time 10
                 {| isBusy := false; hasSessionResult := true;
                    getSessionResult := Scenario.result true 42 0 1;
                    getRSSI := 5; isCooling := true; hasRingAlert := true;
                    getQueuedMT := 2; getMOMSN := 43;
                    readBufferMT := [x00; x01; xaa] |})
              (Scenario.holding [Scenario.request 1 5 [x68]] None))
    as (_ & Hgate & Hquiet).
  split; [apply Hgate; [reflexivity|right; reflexivity]|].
  destruct Hquiet as (Hsend & _ & Hpoll & _); [right; right; reflexivity|].
  split; [exact Hsend|]. split; [exact Hpoll|reflexivity].
Defined.

(** ** One action per cycle *)

(** A cycle sends at most once and polls the mailbox at most once, and
    never does both; it requests a sequence number exactly when it sends,
    and before sending; and what it sends is the payload of the request at
    the head of the list once the session result has been handled, which
    then leaves the list while the rest of the list stays as it is. *)
Theorem one_action_per_cycle (env : Env) (t : Task) :
  let resolved := fst (resolveResult env t) in
  let after := processQueue env t in
  (List.length (filter is_send (snd after))
   + List.length (filter is_poll (snd after)) <= 1)%nat
  /\ List.length (filter is_sequence_request (snd after))
     = List.length (filter is_send (snd after))
  /\ (forall payload,
        In (DrvSendSBD payload) (snd after) ->
        exists front rest,
          m_tx_requests resolved = front :: rest
          /\ payload = Request.getData front
          /\ m_tx_requests (fst after) = rest
          /\ snd after
             = snd (resolveResult env t) ++ [DrvGetMOMSN; DrvSendSBD payload]).
Proof.
  intros resolved after. subst resolved after.
  destruct (isBusy (driver env)) eqn:Hbusy.
  { assert (Hrun : processQueue env t = (t, [])).
    { unfold processQueue. now rewrite Hbusy. }
    rewrite Hrun. cbn. split; [lia|]. split; [reflexivity|].
    intros payload []. }
  rewrite processQueue_state, processQueue_trace by exact Hbusy.
  rewrite !filter_app.
  destruct (resolveResult_quiet env t) as [-> ->].
  rewrite resolveResult_no_sequence_request. cbn [app].
  destruct ((getRSSI (driver env) =? 0) || isCooling (driver env)).
  { cbn. split; [lia|]. split; [reflexivity|].
    intros payload Hin. rewrite app_nil_r in Hin. exfalso.
    assert (Hf : In (DrvSendSBD payload)
                   (filter is_send (snd (resolveResult env t)))).
    { apply filter_In. now split. }
    destruct (resolveResult_quiet env t) as [_ Hq]. rewrite Hq in Hf.
    destruct Hf. }
  rewrite pollOrSend_cases.
  destruct (m_tx_requests (fst (resolveResult env t))) as [|front rest] eqn:Hq.
  - cbn [fst snd]. split; [|split].
    + destruct (hasRingAlert _); [cbn; lia|]. destruct (_ || _); cbn; lia.
    + destruct (hasRingAlert _); [reflexivity|].
      destruct (_ || _); reflexivity.
    + intros payload Hin. exfalso.
      apply in_app_or in Hin. destruct Hin as [Hin|Hin].
      * assert (Hf : In (DrvSendSBD payload)
                       (filter is_send (snd (resolveResult env t)))).
        { apply filter_In. now split. }
        destruct (resolveResult_quiet env t) as [_ Hs]. rewrite Hs in Hf.
        destruct Hf.
      * destruct (hasRingAlert _); [|destruct (_ || _)]; cbn in Hin;
          repeat (destruct Hin as [Hin|Hin]; try discriminate); exact Hin.
  - cbn [fst snd]. split; [cbn; lia|]. split; [reflexivity|].
    intros payload Hin. exists front, rest.
    apply in_app_or in Hin. destruct Hin as [Hin|Hin].
    + exfalso.
      assert (Hf : In (DrvSendSBD payload)
                     (filter is_send (snd (resolveResult env t)))).
      { apply filter_In. now split. }
      destruct (resolveResult_quiet env t) as [_ Hs]. rewrite Hs in Hf.
      destruct Hf.
    + destruct Hin as [Hin|[Hin|[]]]; [discriminate|].
      injection Hin as <-. repeat split.
Qed.

Lemma one_action_per_cycle_witness :
  let urgent := Scenario.request 1 1 [x61] in
  let later := Scenario.request 2 9 [x62] in
  let t := Scenario.holding [urgent; later] None in
  let env := Scenario.at_time 10 (Scenario.ringing true 3) in
  In (DrvSendSBD [x61]) (snd (processQueue env t))
  /\ m_tx_requests (fst (processQueue env t)) = [later]
  /\ snd (processQueue env t) = [DrvGetMOMSN; DrvSendSBD [x61]].
Proof.
  cbv zeta.
  assert (Hin : In (DrvSendSBD [x61])
                  (snd (processQueue
                          (Scenario.at_time 10 (Scenario.ringing true 3))
                          (Scenario.holding
                             [Scenario.request 1 1 [x61];
                              Scenario.request 2 9 [x62]] None)))).
  { right. left. reflexivity. }
  split; [exact Hin|].
  destruct (one_action_per_cycle
              (Scenario.at_time 10 (Scenario.ringing true 3))
              (Scenario.holding
                 [Scenario.request 1 1 [x61]; Scenario.request 2 9 [x62]]
                 None)) as (_ & _ & Hsent).
  destruct (Hsent _ Hin) as (front & rest & Hq & _ & Hafter & Htrace).
  injection Hq as <- <-. split; [exact Hafter|exact Htrace].
Defined.

(** ** Which request is sent *)

(** In a running task, the request a cycle sends is the head of the list as
    it was when the cycle began; its time to live is the smallest of the
    list, and the other requests stay in the list in their order. *)
Theorem cycle_sends_most_urgent (env : Env) (t : Task)
    (payload : list byte) :
  reachable t ->
  In (DrvSendSBD payload) (snd (processQueue env t)) ->
  exists front rest,
    m_tx_requests t = front :: rest
    /\ payload = Request.getData front
    /\ Forall (fun r => Request.getTimeToLive front
                        <= Request.getTimeToLive r) rest
    /\ m_tx_requests (fst (processQueue env t)) = rest.
Proof.
  intros Hreach Hin.
  pose proof (reachable_slot_empty t Hreach) as Hslot.
  pose proof (reachable_ordered t Hreach) as Hord.
  destruct (isBusy (driver env)) eqn:Hbusy.
  { unfold processQueue in Hin. rewrite Hbusy in Hin. destruct Hin. }
  rewrite processQueue_trace in Hin by exact Hbusy.
  rewrite processQueue_state by exact Hbusy.
  apply in_app_or in Hin. destruct Hin as [Hin|Hin].
  { exfalso.
    assert (Hf : In (DrvSendSBD payload)
                   (filter is_send (snd (resolveResult env t)))).
    { apply filter_In. now split. }
    destruct (resolveResult_quiet env t) as [_ Hs]. rewrite Hs in Hf.
    destruct Hf. }
  destruct ((getRSSI (driver env) =? 0) || isCooling (driver env));
    [destruct Hin|].
  rewrite pollOrSend_cases in Hin |- *.
  rewrite (resolveResult_requests_without_active env t Hslot) in Hin |- *.
  destruct (m_tx_requests t) as [|front rest] eqn:Hq.
  - exfalso. cbn [snd] in Hin.
    destruct (hasRingAlert _); [|destruct (_ || _)]; cbn in Hin;
      repeat (destruct Hin as [Hin|Hin]; try discriminate); exact Hin.
  - cbn [fst snd] in Hin |- *.
    destruct Hin as [Hin|[Hin|[]]]; [discriminate|]. injection Hin as <-.
    exists front, rest. destruct Hord as [Hmin _]. repeat split. exact Hmin.
Qed.

Lemma cycle_sends_most_urgent_witness :
  let inputs := [Arrive (Scenario.msg 1 9 [x39]);
                 Arrive (Scenario.msg 2 1 [x31])] in
  let t := fst (run inputs Scenario.idle) in
  let env := Scenario.at_time 10 (Scenario.ready 42) in
  (reachable t /\ In (DrvSendSBD [x31]) (snd (processQueue env t)))
  /\ m_tx_requests (fst (processQueue env t)) = [Scenario.request 1 9 [x39]].
Proof.
  cbv zeta.
  assert (Hreach : reachable
                     (fst (run [Arrive (Scenario.msg 1 9 [x39]);
                                Arrive (Scenario.msg 2 1 [x31])]
                             Scenario.idle))).
  { apply (reachable_step _ (Arrive _)). apply (reachable_step _ (Arrive _)).
    apply reachable_new. }
  assert (Hin : In (DrvSendSBD [x31])
                  (snd (processQueue
                          (Scenario.at_time 10 (Scenario.ready 42))
                          (fst (run [Arrive (Scenario.msg 1 9 [x39]);
                                     Arrive (Scenario.msg 2 1 [x31])]
                                  Scenario.idle))))).
  { right. left. reflexivity. }
  split; [split; [exact Hreach|exact Hin]|].
  destruct (cycle_sends_most_urgent _ _ _ Hreach Hin)
    as (front & rest & Hq & _ & _ & Hafter).
  rewrite Hafter. injection Hq as _ <-. reflexivity.
Defined.

(** ** A confirmed transmission *)

(** When the session result reports success with the valid sequence number
    of the active request, the buffer of the driver is cleared, one OK
    status goes to the origin of the request, the request is dropped from
    the active slot and does not go back into the list, and the mailbox
    check timer restarts from the time of the cycle. *)
Theorem success_confirms_active (env : Env) (t : Task)
    (active : TxRequest) :
  let res := getSessionResult (driver env) in
  let after := handleSessionResult env t in
  m_tx_request t = Some active ->
  Request.hasValidMSN active = true ->
  Request.getMSN active = getSequenceMO res ->
  isSuccessMO res = true ->
  (exists rest,
      snd after
      = DrvGetSessionResult
          :: Debug "dequeing message"
          :: DrvClearBufferMO
          :: Dispatch
               {| IMC.status_destination := Request.getSource active;
                  IMC.status_destination_entity :=
                    Request.getSourceEntity active;
                  IMC.status_req_id := Request.getId active;
                  IMC.status := IMC.TXSTATUS_OK;
                  IMC.text := "" |}
          :: rest
      /\ filter is_status rest = [])
  /\ m_tx_request (fst after) = None
  /\ m_tx_requests (fst after) = m_tx_requests t
  /\ m_mbox_check_timer (fst after)
     = Timer.reset (clock env) (m_mbox_check_timer t).
Proof.
  intros res after Hslot Hvalid Hmsn Hok.
  assert (Hguard : negb (Request.hasValidMSN active)
                   || negb (Request.getMSN active =? getSequenceMO res)
                   = false).
  { rewrite Hvalid, Hmsn, Z.eqb_refl. reflexivity. }
  assert (Hmid : (if isSuccessMO res
                  then dequeueTxRequest (getSequenceMO res)
                         (set_mbox_check_timer
                            (Timer.reset (clock env) (m_mbox_check_timer t))
                            t)
                  else invalidateTxRequest (getSequenceMO res)
                         (getStatusMO res) t)
                 = (set_tx_request None
                      (set_mbox_check_timer
                         (Timer.reset (clock env) (m_mbox_check_timer t)) t),
                    [Debug "dequeing message"; DrvClearBufferMO;
                     Dispatch
                       {| IMC.status_destination := Request.getSource active;
                          IMC.status_destination_entity :=
                            Request.getSourceEntity active;
                          IMC.status_req_id := Request.getId active;
                          IMC.status := IMC.TXSTATUS_OK;
                          IMC.text := "" |}])).
  { rewrite Hok. unfold dequeueTxRequest, withTask.
    cbn [set_mbox_check_timer m_tx_request]. rewrite Hslot, Hguard.
    reflexivity. }
  subst after. rewrite (handleSessionResult_run env t _ _ Hmid).
  cbn [fst snd app]. split.
  - eexists. split; [reflexivity|].
    destruct (getStatusMT _ =? 1); [apply handleSBD_no_status|reflexivity].
  - repeat split.
Qed.

Lemma success_confirms_active_witness :
  let active := Request.setMSN 42 (Scenario.request 1 5 [x68; x69]) in
  let queued := Scenario.request 2 6 [x6a] in
  let t := Scenario.holding [queued] (Some active) in
  let res := Scenario.result true 42 0 0 in
  let env := Scenario.at_time 10 (Scenario.done res [] 43) in
  (m_tx_request t = Some active
   /\ Request.hasValidMSN active = true
   /\ Request.getMSN active = getSequenceMO res
   /\ isSuccessMO res = true)
  /\ m_tx_request (fst (handleSessionResult env t)) = None
  /\ m_tx_requests (fst (handleSessionResult env t)) = [queued]
  /\ m_last (m_mbox_check_timer (fst (handleSessionResult env t))) = 10.
Proof.
  cbv zeta. split; [repeat split; reflexivity|].
  pose proof
    (success_confirms_active
       (Scenario.at_time 10
          (Scenario.done (Scenario.result true 42 0 0) [] 43))
       (Scenario.holding [Scenario.request 2 6 [x6a]]
          (Some (Request.setMSN 42 (Scenario.request 1 5 [x68; x69]))))
       (Request.setMSN 42 (Scenario.request 1 5 [x68; x69]))
       eq_refl eq_refl eq_refl eq_refl)
    as (_ & Hslot & Hq & Htimer).
  split; [exact Hslot|]. split; [exact Hq|]. now rewrite Htimer.
Defined.

(** ** A request through an idle task *)

(** A message that arrives at a task with nothing queued is sent by the
    next cycle that passes the gates without a session result to handle:
    the cycle requests a sequence number, sends exactly the payload of the
    message, and leaves the task as it was before the message arrived. *)
Theorem consume_then_cycle_round_trip (msg : IMC.IridiumMsgTx) (env : Env)
    (t : Task) :
  m_tx_requests t = [] ->
  isBusy (driver env) = false ->
  hasSessionResult (driver env) = false ->
  getRSSI (driver env) <> 0 ->
  isCooling (driver env) = false ->
  processQueue env (fst (consume msg t))
  = (t, [DrvGetMOMSN; DrvSendSBD (IMC.data msg)]).
Proof.
  intros Hq Hbusy Hres Hrssi Hcool.
  assert (Hqueue : m_tx_requests (fst (consume msg t))
                   = [Request.new (IMC.getSource msg)
                        (IMC.getSourceEntity msg)
                        (resolveSystemName (m_ctx t) (IMC.destination msg))
                        (IMC.req_id msg) (IMC.ttl msg) (IMC.data msg)]).
  { act. cbn [fst]. cbn [set_tx_requests m_tx_requests]. now rewrite Hq. }
  rewrite (processQueue_send env _ _ [] Hbusy Hres Hrssi Hcool Hqueue).
  f_equal. act. cbn [fst]. destruct t. cbn in *. now subst.
Qed.

Lemma consume_then_cycle_round_trip_witness :
  let msg := Scenario.msg 1 5 [x68; x69] in
  let env := Scenario.at_time 10 (Scenario.ready 42) in
  (m_tx_requests Scenario.idle = []
   /\ isBusy (driver env) = false
   /\ hasSessionResult (driver env) = false
   /\ getRSSI (driver env) <> 0
   /\ isCooling (driver env) = false)
  /\ processQueue env (fst (consume msg Scenario.idle))
     = (Scenario.idle, [DrvGetMOMSN; DrvSendSBD [x68; x69]]).
Proof.
  cbv zeta.
  assert (Hrssi : getRSSI (driver (Scenario.at_time 10 (Scenario.ready 42)))
                  <> 0) by discriminate.
  split; [repeat split; try reflexivity; exact Hrssi|].
  exact (consume_then_cycle_round_trip (Scenario.msg 1 5 [x68; x69])
           (Scenario.at_time 10 (Scenario.ready 42)) Scenario.idle
           eq_refl eq_refl eq_refl Hrssi eq_refl).
Defined.

(** ** The books of a run *)

Lemma tally_skip (t : Task) : m_tx_request t = None -> tally 0 t t [].
Proof.
  intros Hslot. unfold tally. cbn. repeat split; solve [exact Hslot | lia].
Qed.

Lemma tally_andThen (a b : Act) (n m : nat) (t : Task) :
  tally n t (fst (a t)) (snd (a t)) ->
  tally m (fst (a t)) (fst (b (fst (a t)))) (snd (b (fst (a t)))) ->
  tally (n + m) t (fst ((a ;; b) t)) (snd ((a ;; b) t)).
Proof.
  unfold tally, andThen. cbn [fst snd].
  intros (_ & Ha1 & Ha2 & Ha3 & Ha4 & Ha5) (Hb0 & Hb1 & Hb2 & Hb3 & Hb4 & Hb5).
  rewrite !filter_app, !length_app, Ha1, Ha2, Ha3, Hb1, Hb2, Hb3, Ha4, Hb4.
  repeat split; try assumption. lia.
Qed.

Lemma handleSBD_tally (env : Env) (t : Task) :
  filter is_ok_status (snd (handleSBD env t)) = []
  /\ filter is_error_status (snd (handleSBD env t)) = []
  /\ filter is_clear (snd (handleSBD env t)) = []
  /\ filter is_queued_status (snd (handleSBD env t)) = []
  /\ filter is_send (snd (handleSBD env t)) = [].
Proof. act. destruct (2 <? _); repeat split. Qed.

(** Handling a session result with nothing active: the timer may restart
    and the receive buffer may be read, nothing else. *)
Lemma resolveResult_without_active (env : Env) (t : Task) :
  m_tx_request t = None ->
  exists mid,
    resolveResult env t
    = (mid,
       if hasSessionResult (driver env)
       then DrvGetSessionResult
              :: (if getStatusMT (getSessionResult (driver env)) =? 1
                  then snd (handleSBD env mid) else [])
       else [])
    /\ m_tx_requests mid = m_tx_requests t
    /\ m_tx_request mid = None.
Proof.
  intros Hslot. unfold resolveResult.
  destruct (hasSessionResult _).
  - assert (Hmid : (if isSuccessMO (getSessionResult (driver env))
                    then dequeueTxRequest
                           (getSequenceMO (getSessionResult (driver env)))
                           (set_mbox_check_timer
                              (Timer.reset (clock env) (m_mbox_check_timer t))
                              t)
                    else invalidateTxRequest
                           (getSequenceMO (getSessionResult (driver env)))
                           (getStatusMO (getSessionResult (driver env))) t)
                   = (if isSuccessMO (getSessionResult (driver env))
                      then set_mbox_check_timer
                             (Timer.reset (clock env) (m_mbox_check_timer t)) t
                      else t, [])).
    { destruct (isSuccessMO _).
      - now apply dequeueTxRequest_slot.
      - now apply invalidateTxRequest_slot. }
    eexists. rewrite (handleSessionResult_run env t _ _ Hmid).
    cbn [app]. split; [reflexivity|].
    destruct (isSuccessMO _); split; solve [reflexivity | exact Hslot].
  - exists t. repeat split. exact Hslot.
Qed.

Lemma processQueue_tally (env : Env) (t : Task) :
  m_tx_request t = None ->
  tally 0 t (fst (processQueue env t)) (snd (processQueue env t)).
Proof.
  intros Hslot. destruct (isBusy (driver env)) eqn:Hbusy.
  { unfold processQueue. rewrite Hbusy. cbn [skip fst snd].
    unfold tally. cbn. repeat split; solve [exact Hslot | lia]. }
  rewrite processQueue_state, processQueue_trace by exact Hbusy.
  destruct (resolveResult_without_active env t Hslot)
    as (mid & Hrun & Hq & Hmid).
  rewrite Hrun. cbn [fst snd].
  destruct (handleSBD_tally env mid) as (Hok & Herr & Hclr & Hqd & Hsnd).
  assert (Hresolve :
            tally 0 t mid
              (if hasSessionResult (driver env)
               then DrvGetSessionResult
                      :: (if getStatusMT (getSessionResult (driver env)) =? 1
                          then snd (handleSBD env mid) else [])
               else [])).
  { unfold tally. rewrite Hq.
    destruct (hasSessionResult _); [|cbn; repeat split; solve [exact Hmid | lia]].
    cbn [filter is_ok_status is_error_status is_clear is_queued_status
           is_send].
    destruct (_ =? 1).
    - rewrite Hok, Herr, Hclr, Hqd, Hsnd. cbn. repeat split; solve [exact Hmid | lia].
    - cbn. repeat split; solve [exact Hmid | lia]. }
  destruct ((getRSSI (driver env) =? 0) || isCooling (driver env)).
  { now rewrite app_nil_r. }
  rewrite pollOrSend_cases.
  destruct Hresolve as (_ & H1 & H2 & H3 & H4 & H5).
  unfold tally. rewrite !filter_app, !length_app, H1, H2, H3, H4.
  destruct (m_tx_requests mid) as [|front rest] eqn:Hmq; cbn [fst snd].
  - rewrite Hmq, Hmid.
    destruct (hasRingAlert _); [|destruct (_ || _)]; cbn;
      cbn in H5; repeat split; lia.
  - cbn [set_tx_requests m_tx_requests m_tx_request]. rewrite Hmid.
    cbn. cbn in H5. repeat split. lia.
Qed.

Lemma consume_tally (msg : IMC.IridiumMsgTx) (t : Task) :
  m_tx_request t = None ->
  tally 1 t (fst (consume msg t)) (snd (consume msg t)).
Proof.
  intros Hslot. unfold tally. act. cbn [fst snd app].
  cbn [set_tx_requests m_tx_requests m_tx_request].
  rewrite insert_request_length. cbn. repeat split; solve [exact Hslot | lia].
Qed.

Lemma onUpdateParameters_tally (now : Z) (t : Task) :
  m_tx_request t = None ->
  tally 0 t (fst (onUpdateParameters now t)) (snd (onUpdateParameters now t)).
Proof.
  intros Hslot. unfold tally. act.
  destruct (m_driver t); cbn; repeat split; solve [exact Hslot | lia].
Qed.

Lemma run_tally (inputs : list Input) (t : Task) :
  m_tx_request t = None ->
  tally (List.length (filter is_arrival inputs)) t
    (fst (run inputs t)) (snd (run inputs t)).
Proof.
  revert t. induction inputs as [|i rest IH]; intros t Hslot; cbn [run].
  - now apply tally_skip.
  - assert (Hstep : tally (if is_arrival i then 1 else 0) t
                      (fst (step i t)) (snd (step i t))).
    { destruct i as [msg|now|env]; cbn [step is_arrival].
      - now apply consume_tally.
      - now apply onUpdateParameters_tally.
      - now apply processQueue_tally. }
    replace (List.length (filter is_arrival (i :: rest)))
      with ((if is_arrival i then 1 else 0)
            + List.length (filter is_arrival rest))%nat
      by (cbn; destruct (is_arrival i); reflexivity).
    apply tally_andThen; [exact Hstep|].
    apply IH. now destruct Hstep.
Qed.

(** Whatever happens to a running task, it never reports a transmission as
    done or as failed and never has the buffer of the driver cleared: the
    only status it dispatches is QUEUED, once for each request that
    arrives; and the requests that arrived are those still in the list and
    those handed to the driver, each handed over once. *)
Theorem run_reports_only_queued (inputs : list Input) (t : Task) :
  reachable t ->
  let after := run inputs t in
  filter is_ok_status (snd after) = []
  /\ filter is_error_status (snd after) = []
  /\ filter is_clear (snd after) = []
  /\ List.length (filter is_queued_status (snd after))
     = List.length (filter is_arrival inputs)
  /\ (List.length (m_tx_requests (fst after))
      + List.length (filter is_send (snd after))
      = List.length (m_tx_requests t)
        + List.length (filter is_arrival inputs))%nat.
Proof.
  intros Hreach after. subst after.
  destruct (run_tally inputs t (reachable_slot_empty t Hreach))
    as (_ & Hok & Herr & Hclr & Hqd & Hbooks).
  repeat split; assumption.
Qed.

Lemma run_reports_only_queued_witness :
  let inputs :=
    [Arrive (Scenario.msg 1 5 [x61]);
     Cycle (Scenario.at_time 10 (Scenario.ready 42));
     Arrive (Scenario.msg 2 6 [x62]);
     Cycle (Scenario.at_time 20
              (Scenario.done (Scenario.result true 42 0 0) [] 43));
     Arrive (Scenario.msg 3 7 [x63])] in
  let after := run inputs Scenario.idle in
  reachable Scenario.idle
  /\ filter is_ok_status (snd after) = []
  /\ List.length (filter is_queued_status (snd after)) = 3%nat
  /\ List.length (filter is_send (snd after)) = 2%nat
  /\ List.length (m_tx_requests (fst after)) = 1%nat.
Proof.
  cbv zeta.
  assert (Hreach : reachable Scenario.idle) by apply reachable_new.
  split; [exact Hreach|].
  destruct (run_reports_only_queued
              [Arrive (Scenario.msg 1 5 [x61]);
               Cycle (Scenario.at_time 10 (Scenario.ready 42));
               Arrive (Scenario.msg 2 6 [x62]);
               Cycle (Scenario.at_time 20
                        (Scenario.done (Scenario.result true 42 0 0) [] 43));
               Arrive (Scenario.msg 3 7 [x63])]
              Scenario.idle Hreach) as (Hok & _ & _ & Hqd & _).
  split; [exact Hok|]. split; [exact Hqd|]. split; reflexivity.
Defined.

(** ** The main loop and the shutdown *)

Lemma waitForMessages_tally (arrived : list IMC.IridiumMsgTx) (t : Task) :
  m_tx_request t = None ->
  tally (List.length arrived) t
    (fst (waitForMessages arrived t)) (snd (waitForMessages arrived t)).
Proof.
  revert t. induction arrived as [|msg rest IH]; intros t Hslot;
    cbn [waitForMessages List.length].
  - now apply tally_skip.
  - change (S (List.length rest)) with (1 + List.length rest)%nat.
    pose proof (consume_tally msg t Hslot) as Hmsg.
    apply tally_andThen; [exact Hmsg|]. apply IH. now destruct Hmsg.
Qed.

Lemma onMain_tally (passes : list (list IMC.IridiumMsgTx * Env)) (t : Task) :
  m_tx_request t = None ->
  tally (List.length (arrivals passes)) t
    (fst (onMain passes t)) (snd (onMain passes t)).
Proof.
  revert t. induction passes as [|pass rest IH]; intros t Hslot;
    cbn [onMain].
  - now apply tally_skip.
  - unfold arrivals. cbn [map List.concat]. rewrite length_app.
    fold (arrivals rest).
    pose proof (waitForMessages_tally (fst pass) t Hslot) as Hwait.
    apply tally_andThen; [exact Hwait|].
    assert (Hslot1 : m_tx_request (fst (waitForMessages (fst pass) t)) = None)
      by now destruct Hwait.
    pose proof (processQueue_tally (snd pass) _ Hslot1) as Hcycle.
    change (List.length (arrivals rest))
      with (0 + List.length (arrivals rest))%nat.
    apply tally_andThen; [exact Hcycle|]. apply IH. now destruct Hcycle.
Qed.

(** From the start of the main loop to the end of the destructor, with
    nothing active at the start: every message that arrived got one QUEUED
    status; no OK status was dispatched; and the requests that were in the
    list at the start or arrived since are as many as the payloads handed
    to the driver plus the ERROR statuses, all of which are dispatched by
    the destructor.  At the end the list and the active slot are empty. *)
Theorem onMain_then_shutdown (passes : list (list IMC.IridiumMsgTx * Env))
    (t : Task) :
  m_tx_request t = None ->
  let stopped := onMain passes t in
  let after := (onMain passes ;; Task_delete) t in
  List.length (filter is_queued_status (snd after))
  = List.length (arrivals passes)
  /\ filter is_ok_status (snd after) = []
  /\ filter is_error_status (snd stopped) = []
  /\ (List.length (filter is_send (snd after))
      + List.length (filter is_error_status (snd after))
      = List.length (m_tx_requests t) + List.length (arrivals passes))%nat
  /\ m_tx_requests (fst after) = []
  /\ m_tx_request (fst after) = None.
Proof.
  intros Hslot stopped after. subst stopped after.
  destruct (onMain_tally passes t Hslot)
    as (_ & Hok & Herr & _ & Hqd & Hbooks).
  unfold andThen. cbn [fst snd].
  set (stopped := fst (onMain passes t)) in *.
  assert (Hdel : snd (Task_delete stopped)
                 = map (fun req => Dispatch (shutdown_status req))
                     (m_tx_requests stopped)
                 /\ m_tx_requests (fst (Task_delete stopped)) = []
                 /\ m_tx_request (fst (Task_delete stopped)) = None).
  { unfold Task_delete, andThen, withTask, modify. cbn [fst snd app].
    cbn [set_tx_request m_tx_requests]. rewrite drain_trace.
    destruct (drain_task (m_tx_requests stopped) (set_tx_request None stopped))
      as [Hq' Hslot'].
    rewrite Hq', Hslot'. cbn [set_tx_request m_tx_requests m_tx_request].
    split; [reflexivity|].
    split; [destruct (m_tx_requests stopped); reflexivity|reflexivity]. }
  destruct Hdel as (Htrace & Hq' & Hslot').
  rewrite Htrace, !filter_app, !length_app, Hok, Herr, Hqd.
  rewrite shutdown_statuses_are_errors.
  assert (Hnone : forall l,
             filter is_queued_status
               (map (fun req => Dispatch (shutdown_status req)) l) = []
             /\ filter is_ok_status
                  (map (fun req => Dispatch (shutdown_status req)) l) = []
             /\ filter is_send
                  (map (fun req => Dispatch (shutdown_status req)) l) = []).
  { induction l as [|req l IH]; cbn; [repeat split|exact IH]. }
  destruct (Hnone (m_tx_requests stopped)) as (Hn1 & Hn2 & Hn3).
  rewrite Hn1, Hn2, Hn3. cbn [List.length app].
  repeat split; try assumption; lia.
Qed.

Lemma onMain_then_shutdown_witness :
  let passes :=
    [([Scenario.msg 1 5 [x61]; Scenario.msg 2 6 [x62]],
      Scenario.at_time 10 (Scenario.ready 42));
     ([Scenario.msg 3 7 [x63]],
      Scenario.at_time 20 (Scenario.ringing false 0))] in
  let after := (onMain passes ;; Task_delete) Scenario.idle in
  m_tx_request Scenario.idle = None
  /\ List.length (filter is_queued_status (snd after)) = 3%nat
  /\ List.length (filter is_send (snd after)) = 2%nat
  /\ List.length (filter is_error_status (snd after)) = 1%nat
  /\ m_tx_requests (fst after) = [].
Proof.
  cbv zeta. split; [reflexivity|].
  destruct (onMain_then_shutdown
              [([Scenario.msg 1 5 [x61]; Scenario.msg 2 6 [x62]],
                Scenario.at_time 10 (Scenario.ready 42));
               ([Scenario.msg 3 7 [x63]],
                Scenario.at_time 20 (Scenario.ringing false 0))]
              Scenario.idle eq_refl) as (Hqd & _ & _ & _ & Hq & _).
  split; [exact Hqd|]. split; [reflexivity|]. split; [reflexivity|exact Hq].
Defined.

(** ** A session result, in every case *)

Lemma unmatched_false (msn : Z) (t : Task) :
  unmatched msn t = false ->
  exists active,
    m_tx_request t = Some active
    /\ negb (Request.hasValidMSN active)
       || negb (Request.getMSN active =? msn) = false.
Proof.
  unfold unmatched. destruct (m_tx_request t) as [active|]; [|discriminate].
  intros H. now exists active.
Qed.

Lemma success_path (env : Env) (t : Task) (active : TxRequest) :
  m_tx_request t = Some active ->
  Request.hasValidMSN active = true ->
  Request.getMSN active = getSequenceMO (getSessionResult (driver env)) ->
  isSuccessMO (getSessionResult (driver env)) = true ->
  filter is_status (snd (handleSessionResult env t))
  = [Dispatch
       {| IMC.status_destination := Request.getSource active;
          IMC.status_destination_entity := Request.getSourceEntity active;
          IMC.status_req_id := Request.getId active;
          IMC.status := IMC.TXSTATUS_OK;
          IMC.text := "" |}]
  /\ m_tx_request (fst (handleSessionResult env t)) = None
  /\ m_tx_requests (fst (handleSessionResult env t)) = m_tx_requests t.
Proof.
  intros Hslot Hvalid Hmsn Hok.
  assert (Hmid : (if isSuccessMO (getSessionResult (driver env))
                  then dequeueTxRequest
                         (getSequenceMO (getSessionResult (driver env)))
                         (set_mbox_check_timer
                            (Timer.reset (clock env) (m_mbox_check_timer t))
                            t)
                  else invalidateTxRequest
                         (getSequenceMO (getSessionResult (driver env)))
                         (getStatusMO (getSessionResult (driver env))) t)
                 = (set_tx_request None
                      (set_mbox_check_timer
                         (Timer.reset (clock env) (m_mbox_check_timer t)) t),
                    [Debug "dequeing message"; DrvClearBufferMO;
                     Dispatch
                       {| IMC.status_destination := Request.getSource active;
                          IMC.status_destination_entity :=
                            Request.getSourceEntity active;
                          IMC.status_req_id := Request.getId active;
                          IMC.status := IMC.TXSTATUS_OK;
                          IMC.text := "" |}])).
  { rewrite Hok. unfold dequeueTxRequest, withTask.
    cbn [set_mbox_check_timer m_tx_request].
    rewrite Hslot, Hvalid, Hmsn, Z.eqb_refl. reflexivity. }
  rewrite (handleSessionResult_run env t _ _ Hmid). cbn [fst snd app].
  cbn [filter is_status]. split; [|split; reflexivity].
  destruct (_ =? 1); [now rewrite handleSBD_no_status|reflexivity].
Qed.

Lemma failure_path (env : Env) (t : Task) (active : TxRequest) :
  m_tx_request t = Some active ->
  Request.hasValidMSN active = true ->
  Request.getMSN active = getSequenceMO (getSessionResult (driver env)) ->
  isSuccessMO (getSessionResult (driver env)) = false ->
  filter is_status (snd (handleSessionResult env t))
  = [Dispatch
       {| IMC.status_destination := Request.getSource active;
          IMC.status_destination_entity := Request.getSourceEntity active;
          IMC.status_req_id := Request.getId active;
          IMC.status := IMC.TXSTATUS_ERROR;
          IMC.text := ("failed with error "
                       ++ str_u (getStatusMO
                                   (getSessionResult (driver env))))%string |}]
  /\ m_tx_request (fst (handleSessionResult env t)) = None
  /\ m_tx_requests (fst (handleSessionResult env t))
     = insert_request (Request.invalidateMSN active) (m_tx_requests t).
Proof.
  intros Hslot Hvalid Hmsn Hfail.
  assert (Hmid : (if isSuccessMO (getSessionResult (driver env))
                  then dequeueTxRequest
                         (getSequenceMO (getSessionResult (driver env)))
                         (set_mbox_check_timer
                            (Timer.reset (clock env) (m_mbox_check_timer t))
                            t)
                  else invalidateTxRequest
                         (getSequenceMO (getSessionResult (driver env)))
                         (getStatusMO (getSessionResult (driver env))) t)
                 = (set_tx_request None
                      (set_tx_requests
                         (insert_request (Request.invalidateMSN active)
                            (m_tx_requests t)) t),
                    [Debug "invalidating MSN";
                     Dispatch
                       {| IMC.status_destination := Request.getSource active;
                          IMC.status_destination_entity :=
                            Request.getSourceEntity active;
                          IMC.status_req_id := Request.getId active;
                          IMC.status := IMC.TXSTATUS_ERROR;
                          IMC.text :=
                            ("failed with error "
                             ++ str_u (getStatusMO
                                         (getSessionResult (driver env))))%string
                       |}])).
  { rewrite Hfail. unfold invalidateTxRequest, withTask.
    rewrite Hslot, Hvalid, Hmsn, Z.eqb_refl. reflexivity. }
  rewrite (handleSessionResult_run env t _ _ Hmid). cbn [fst snd app].
  cbn [filter is_status]. split; [|split; reflexivity].
  destruct (_ =? 1); [now rewrite handleSBD_no_status|reflexivity].
Qed.

(** Handling a session result is all or nothing for the outbound side.
    Either it dispatches no status and leaves the list of requests and the
    active slot as they are; or a request is active, exactly one status is
    dispatched, addressed to the origin of that request and carrying its
    identifier, and the active slot is empty afterwards: the status is OK
    and the list is unchanged when the result reports success, and it is
    ERROR and the request is back in the list, its sequence number invalid,
    when the result reports failure. *)
Theorem resolution_all_or_nothing (env : Env) (t : Task) :
  let res := getSessionResult (driver env) in
  let after := handleSessionResult env t in
  (filter is_status (snd after) = []
   /\ m_tx_requests (fst after) = m_tx_requests t
   /\ m_tx_request (fst after) = m_tx_request t)
  \/ (exists active st,
        m_tx_request t = Some active
        /\ Request.hasValidMSN active = true
        /\ Request.getMSN active = getSequenceMO res
        /\ filter is_status (snd after) = [Dispatch st]
        /\ IMC.status_destination st = Request.getSource active
        /\ IMC.status_destination_entity st = Request.getSourceEntity active
        /\ IMC.status_req_id st = Request.getId active
        /\ m_tx_request (fst after) = None
        /\ (if isSuccessMO res
            then IMC.status st = IMC.TXSTATUS_OK
                 /\ m_tx_requests (fst after) = m_tx_requests t
            else IMC.status st = IMC.TXSTATUS_ERROR
                 /\ m_tx_requests (fst after)
                    = insert_request (Request.invalidateMSN active)
                        (m_tx_requests t))).
Proof.
  intros res after. subst after.
  destruct (unmatched (getSequenceMO res) t) eqn:Hun.
  - left.
    assert (Hmid : (if isSuccessMO res
                    then dequeueTxRequest (getSequenceMO res)
                           (set_mbox_check_timer
                              (Timer.reset (clock env) (m_mbox_check_timer t))
                              t)
                    else invalidateTxRequest (getSequenceMO res)
                           (getStatusMO res) t)
                   = (if isSuccessMO res
                      then set_mbox_check_timer
                             (Timer.reset (clock env) (m_mbox_check_timer t)) t
                      else t, [])).
    { destruct (isSuccessMO res).
      - apply dequeueTxRequest_unmatched. exact Hun.
      - now apply invalidateTxRequest_unmatched. }
    rewrite (handleSessionResult_run env t _ _ Hmid). cbn [fst snd app].
    cbn [filter is_status].
    split; [destruct (_ =? 1); [apply handleSBD_no_status|reflexivity]|].
    destruct (isSuccessMO res); split; reflexivity.
  - right. destruct (unmatched_false _ _ Hun) as (active & Hslot & Hguard).
    apply orb_false_iff in Hguard. destruct Hguard as [Hvalid Hmsn].
    apply negb_false_iff in Hvalid. apply negb_false_iff in Hmsn.
    apply Z.eqb_eq in Hmsn.
    destruct (isSuccessMO res) eqn:Hok.
    + destruct (success_path env t active Hslot Hvalid Hmsn Hok)
        as (Htrace & Hs & Hq).
      eexists active, _.
      repeat split; try eassumption; reflexivity.
    + destruct (failure_path env t active Hslot Hvalid Hmsn Hok)
        as (Htrace & Hs & Hq).
      eexists active, _.
      repeat split; try eassumption; reflexivity.
Qed.

(** ** A failed transmission, within its cycle *)

(** When a cycle that passes the gates handles the failure of the active
    request, the request is back in the list before the cycle decides what
    to do, so the cycle always sends and never polls the mailbox: it sends
    the head of the list with the failed request in it, which is the failed
    request itself when the list was empty or began with a greater time to
    live.  The request sent leaves the list and the active slot stays
    empty. *)
Theorem failure_retried_in_same_cycle (env : Env) (t : Task)
    (active : TxRequest) :
  let res := getSessionResult (driver env) in
  let requeued := Request.invalidateMSN active in
  let after := processQueue env t in
  isBusy (driver env) = false ->
  hasSessionResult (driver env) = true ->
  getRSSI (driver env) <> 0 ->
  isCooling (driver env) = false ->
  m_tx_request t = Some active ->
  Request.hasValidMSN active = true ->
  Request.getMSN active = getSequenceMO res ->
  isSuccessMO res = false ->
  exists head rest,
    insert_request requeued (m_tx_requests t) = head :: rest
    /\ filter is_send (snd after) = [DrvSendSBD (Request.getData head)]
    /\ filter is_poll (snd after) = []
    /\ m_tx_requests (fst after) = rest
    /\ m_tx_request (fst after) = None
    /\ (strictly_after requeued (m_tx_requests t) ->
        head = requeued /\ rest = m_tx_requests t).
Proof.
  intros res requeued after Hbusy Hres Hrssi Hcool Hslot Hvalid Hmsn Hfail.
  subst after. apply Z.eqb_neq in Hrssi.
  destruct (failure_path env t active Hslot Hvalid Hmsn Hfail)
    as (_ & Hs & Hq).
  fold requeued in Hq.
  assert (Hresolved : resolveResult env t = handleSessionResult env t).
  { unfold resolveResult. now rewrite Hres. }
  rewrite processQueue_sends, processQueue_polls, processQueue_state
    by exact Hbusy.
  rewrite Hbusy, Hrssi, Hcool, Hresolved. cbn [orb].
  rewrite pollOrSend_cases, Hq.
  destruct (insert_request requeued (m_tx_requests t)) as [|head rest] eqn:Hins.
  { apply (f_equal (@List.length _)) in Hins.
    rewrite insert_request_length in Hins. discriminate. }
  exists head, rest. cbn [fst snd filter is_send is_poll].
  cbn [set_tx_requests m_tx_requests m_tx_request].
  repeat split; try assumption.
  - unfold strictly_after in H.
    destruct (m_tx_requests t) as [|h r]; cbn [insert_request] in Hins.
    + now injection Hins as <- _.
    + apply Z.ltb_lt in H. rewrite H in Hins. now injection Hins as <- _.
  - unfold strictly_after in H.
    destruct (m_tx_requests t) as [|h r]; cbn [insert_request] in Hins.
    + now injection Hins as _ <-.
    + apply Z.ltb_lt in H. rewrite H in Hins. now injection Hins as _ <-.
Qed.

Lemma failure_retried_in_same_cycle_witness :
  let active := Request.setMSN 42 (Scenario.request 1 5 [x68; x69]) in
  let t := Scenario.holding [] (Some active) in
  let res := Scenario.result false 42 7 0 in
  let env := Scenario.at_time 10 (Scenario.done res [] 42) in
  (isBusy (driver env) = false
   /\ hasSessionResult (driver env) = true
   /\ getRSSI (driver env) <> 0
   /\ isCooling (driver env) = false
   /\ m_tx_request t = Some active
   /\ Request.hasValidMSN active = true
   /\ Request.getMSN active = getSequenceMO res
   /\ isSuccessMO res = false)
  /\ filter is_send (snd (processQueue env t)) = [DrvSendSBD [x68; x69]]
  /\ m_tx_requests (fst (processQueue env t)) = []
  /\ m_tx_request (fst (processQueue env t)) = None.
Proof.
  cbv zeta.
  assert (Hrssi : getRSSI
                    (driver
                       (Scenario.at_time 10
                          (Scenario.done (Scenario.result false 42 7 0)
                             [] 42))) <> 0) by discriminate.
  split; [repeat split; try reflexivity; exact Hrssi|].
  destruct (failure_retried_in_same_cycle
              (Scenario.at_time 10
                 (Scenario.done (Scenario.result false 42 7 0) [] 42))
              (Scenario.holding []
                 (Some (Request.setMSN 42 (Scenario.request 1 5 [x68; x69]))))
              (Request.setMSN 42 (Scenario.request 1 5 [x68; x69]))
              eq_refl eq_refl Hrssi eq_refl eq_refl eq_refl eq_refl eq_refl)
    as (head & rest & Hins & Hsend & _ & Hq & Hslot & _).
  injection Hins as <- <-.
  split; [exact Hsend|]. split; [exact Hq|exact Hslot].
Defined.
